(** * SAT results manager: the record store and its queries

    A shallow embedding of the two scripts of the repository,

    - [sat.py], the class [SATResultsManager] (module [Sat] below), and
    - [sat_manager.py], the earlier procedural script (module [SatManager]),

    together with the Python builtins they rely on (module [Py]): text
    trimming, [str.isdigit], [str.lower], the conversion [float(...)] and
    binary64 arithmetic.  Scores are IEEE 754 binary64 numbers, as Python's
    [float]; they are modelled by Rocq's primitive floats, so that a
    comparison with NaN or a rounding of [0.3 * max_score] is the one the
    interpreter performs. *)

From Stdlib Require Import ZArith Floats Ascii String.
From stdpp Require Import gmap strings list fin_maps.

Local Open Scope Z_scope.

(** ** Python builtins *)

Module Py.

(** *** Text

    A [str] is modelled by a Rocq [string] with one character per [ascii]
    (the code points below 256). *)

Definition code (c : ascii) : N := N_of_ascii c.

(** [str.isspace] on one character: TAB..CR, FS..US, SPACE, NEL, NBSP. *)
Definition isspace (c : ascii) : bool :=
  let n := code c in
  ((9 <=? n) && (n <=? 13) || (28 <=? n) && (n <=? 32) || (n =? 133) || (n =? 160))%N.

Fixpoint lstrip (p : ascii -> bool) (s : string) : string :=
  match s with
  | String c s' => if p c then lstrip p s' else s
  | EmptyString => EmptyString
  end.

Fixpoint rstrip (p : ascii -> bool) (s : string) : string :=
  match s with
  | EmptyString => EmptyString
  | String c s' =>
      match rstrip p s' with
      | EmptyString => if p c then EmptyString else String c EmptyString
      | r => String c r
      end
  end.

(** [s.strip()] *)
Definition strip (s : string) : string := rstrip isspace (lstrip isspace s).

(** [len(s)] *)
Definition len (s : string) : Z := Z.of_nat (String.length s).

(** A character that [str.isdigit] accepts: the decimal digits and, below
    256, the superscripts two, three and one. *)
Definition isdigit_char (c : ascii) : bool :=
  let n := code c in
  ((48 <=? n) && (n <=? 57) || (n =? 178) || (n =? 179) || (n =? 185))%N.

Fixpoint all_chars (p : ascii -> bool) (s : string) : bool :=
  match s with
  | EmptyString => true
  | String c s' => p c && all_chars p s'
  end.

(** [s.isdigit()]: at least one character, and every character a digit. *)
Definition isdigit (s : string) : bool :=
  match s with
  | EmptyString => false
  | _ => all_chars isdigit_char s
  end.

(** [str.lower] on one character: A..Z and the capital letters
    U+00C0..U+00DE (the multiplication sign U+00D7 apart). *)
Definition lower_char (c : ascii) : ascii :=
  let n := code c in
  if ((65 <=? n) && (n <=? 90) || (192 <=? n) && (n <=? 222) && negb (n =? 215))%N
  then ascii_of_N (n + 32) else c.

Fixpoint lower (s : string) : string :=
  match s with
  | EmptyString => EmptyString
  | String c s' => String (lower_char c) (lower s')
  end.

(** *** Numbers *)

(** The nearest binary64 number (ties to even) of an integer. *)
Definition float_of_Z (z : Z) : float :=
  SF2Prim (binary_normalize prec emax z 0 false).

(** The nearest binary64 number of [n / d] with the sign [neg], by the
    division core of the IEEE specification: [a / b] on Python integers,
    and the value of a decimal literal with a fraction. *)
Definition round_ratio (neg : bool) (n d : positive) : float :=
  let '(q, e, l) := SFdiv_core_binary prec emax (Zpos n) 0 (Zpos d) 0 in
  SF2Prim (binary_round_aux prec emax neg q e l).

(** The exceptions that the two scripts can meet. *)
Inductive exn :=
  | ValueError | TypeError | OverflowError | ZeroDivisionError
  | EOFError | IOError.

Inductive result (A : Type) :=
  | Ok (a : A)
  | Raise (e : exn).
Arguments Ok {A} a.
Arguments Raise {A} e.

(** [a / b] on integers (true division). *)
Definition int_truediv (a b : Z) : result float :=
  match a, b with
  | _, Z0 => Raise ZeroDivisionError
  | Z0, Zpos _ => Ok 0%float
  | Z0, Zneg _ => Ok (-0)%float
  | Zpos n, Zpos d | Zneg n, Zneg d => Ok (round_ratio false n d)
  | Zpos n, Zneg d | Zneg n, Zpos d => Ok (round_ratio true n d)
  end.

(** The value [m * 10 ^ e10] of a decimal literal, of sign [neg]. *)
Definition decimal_value (neg : bool) (m : Z) (e10 : Z) : float :=
  match m with
  | Zpos n =>
      match e10 with
      | Zneg k => round_ratio neg n (10 ^ k)%positive
      | _ => SF2Prim (binary_normalize prec emax
                        (if neg then - (m * 10 ^ e10) else m * 10 ^ e10) 0 false)
      end
  | _ => if neg then (-0)%float else 0%float
  end.

Definition digit_val (c : ascii) : option Z :=
  let n := code c in
  if ((48 <=? n) && (n <=? 57))%N then Some (Z.of_N n - 48) else None.

(** The rest of a [digitpart]: digits, each one possibly after one
    underscore.  Returns the value, the number of digits and what follows. *)
Fixpoint digits_tail (acc : Z) (cnt : Z) (s : string) : Z * Z * string :=
  match s with
  | String c s' =>
      match digit_val c with
      | Some d => digits_tail (10 * acc + d) (cnt + 1) s'
      | None =>
          if Ascii.eqb c "_" then
            match s' with
            | String c2 s'' =>
                match digit_val c2 with
                | Some d => digits_tail (10 * acc + d) (cnt + 1) s''
                | None => (acc, cnt, s)
                end
            | EmptyString => (acc, cnt, s)
            end
          else (acc, cnt, s)
      end
  | EmptyString => (acc, cnt, s)
  end.

(** [digitpart ::= digit (["_"] digit)*], continuing the number [acc]. *)
Definition digitpart (acc : Z) (s : string) : option (Z * Z * string) :=
  match s with
  | String c s' =>
      match digit_val c with
      | Some d => Some (digits_tail (10 * acc + d) 1 s')
      | None => None
      end
  | EmptyString => None
  end.

(** [number ::= [digitpart] "." digitpart | digitpart ["."]]: the digits as
    one integer, the number of digits after the point, and what follows. *)
Definition number (s : string) : option (Z * Z * string) :=
  match s with
  | String "." s' =>
      match digitpart 0 s' with
      | Some (m, k, r) => Some (m, k, r)
      | None => None
      end
  | _ =>
      match digitpart 0 s with
      | Some (m, _, String "." r) =>
          match digitpart m r with
          | Some (m', k, r') => Some (m', k, r')
          | None => Some (m, 0, r)
          end
      | Some (m, _, r) => Some (m, 0, r)
      | None => None
      end
  end.

Definition sign (s : string) : bool * string :=
  match s with
  | String "-" s' => (true, s')
  | String "+" s' => (false, s')
  | _ => (false, s)
  end.

(** [exponent ::= ("e" | "E") [sign] digitpart], up to the end of the text;
    no exponent is the exponent 0. *)
Definition exponent (s : string) : option Z :=
  match s with
  | EmptyString => Some 0
  | String c s' =>
      if Ascii.eqb (lower_char c) "e" then
        let '(neg, r) := sign s' in
        match digitpart 0 r with
        | Some (e, _, EmptyString) => Some (if neg then - e else e)
        | _ => None
        end
      else None
  end.

(** The blanks that [float] skips around a number: those of [str.isspace]
    but the separators FS..US. *)
Definition float_space (c : ascii) : bool :=
  let n := code c in
  ((9 <=? n) && (n <=? 13) || (n =? 32) || (n =? 133) || (n =? 160))%N.

(** [float(s)] on a [str]: [None] stands for [ValueError].  Blanks around
    the text are skipped; then comes an optional sign and [inf], [infinity]
    or [nan] in any case, or a decimal number with an optional exponent. *)
Definition float_of_string (s : string) : option float :=
  let '(neg, body) := sign (rstrip float_space (lstrip float_space s)) in
  let word := lower body in
  if (String.eqb word "inf" || String.eqb word "infinity")%bool
  then Some (if neg then neg_infinity else infinity)
  else if String.eqb word "nan" then Some nan
  else
    match number body with
    | Some (m, k, r) =>
        match exponent r with
        | Some e => Some (decimal_value neg m (e - k))
        | None => None
        end
    | None => None
    end.

(** *** Values

    What [json.load] can return, and what a field of a loaded record can
    hold. *)
#[warnings="-register-all"]
Inductive value :=
  | VNone
  | VBool (b : bool)
  | VInt (z : Z)
  | VFloat (f : float)
  | VStr (s : string)
  | VList (l : list value)
  | VDict (d : list (string * value)).

(** [float(v)]: a number converts, a [str] is parsed, anything else is a
    [TypeError]; an integer beyond the binary64 range overflows. *)
Definition to_float (v : value) : result float :=
  match v with
  | VFloat f => Ok f
  | VBool b => Ok (if b then 1%float else 0%float)
  | VInt z =>
      let f := float_of_Z z in
      if PrimFloat.eqb (abs f) infinity then Raise OverflowError else Ok f
  | VStr s =>
      match float_of_string s with
      | Some f => Ok f
      | None => Raise ValueError
      end
  | VNone | VList _ | VDict _ => Raise TypeError
  end.

(** [sum(1 for x in l if p x)] *)
Definition count_if {A} (p : A -> bool) (l : list A) : Z :=
  fold_left Z.add (List.map (fun _ => 1) (List.filter p l)) 0.

End Py.

(** ** Data model *)

(** One candidate, as [insert_data] builds it. *)
Record record := MkRecord {
  name : string;
  address : string;
  city : string;
  country : string;
  pincode : string;
  sat_score : float;
  passed : bool
}.

(** The document kept in memory: [{"max_score": ..., "records": {...}}]. *)
Record store := Store {
  max_score : float;
  records : gmap string record
}.

Definition set_score (s : float) (p : bool) (r : record) : record :=
  MkRecord (name r) (address r) (city r) (country r) (pincode r) s p.

Definition set_passed (p : bool) (r : record) : record :=
  set_score (sat_score r) p r.

(** [0.3], the literal of the pass rule. *)
Definition threshold_ratio : float := 0x1.3333333333333p-2%float.

(** [not d]: the dictionary has no entry. *)
Definition is_empty (recs : gmap string record) : bool := Nat.eqb (size recs) 0.

(** [name in d] *)
Definition has_key (n : string) (recs : gmap string record) : bool :=
  bool_decide (is_Some (recs !! n)).

(** [d.values()] *)
Definition values (recs : gmap string record) : list record :=
  (map_to_list recs).*2.

(** What [json.dump] writes for a record and for the store. *)
Definition dump_record (r : record) : Py.value :=
  Py.VDict [("name", Py.VStr (name r)); ("address", Py.VStr (address r));
            ("city", Py.VStr (city r)); ("country", Py.VStr (country r));
            ("pincode", Py.VStr (pincode r)); ("sat_score", Py.VFloat (sat_score r));
            ("passed", Py.VBool (passed r))]%string.

Definition dump (st : store) : Py.value :=
  Py.VDict [("max_score", Py.VFloat (max_score st));
            ("records", Py.VDict (prod_map id dump_record <$> map_to_list (records st)))]%string.

(** The data file as [open] and [json.load] find it. *)
Inductive file :=
  | Absent                      (* [os.path.exists] is false *)
  | Unreadable                  (* [open] or [read] raises [IOError] *)
  | Malformed                   (* [json.load] raises [JSONDecodeError] *)
  | Document (v : Py.value).    (* [json.load] returns [v] *)

(** The file and whether it can be opened for writing. *)
Record disk := Disk {
  content : file;
  writable : bool
}.

(** ** Console and outcomes

    [input()] takes the next line of the standard input and raises
    [EOFError] when there is none.  A prompt loop returns what it settled
    on, the lines left and what it printed ([M] is the type of notices). *)
Inductive read (M A : Type) :=
  | Got (a : A) (rest : list string) (out : list M)
  | Eof (out : list M).
Arguments Got {M A} a rest out.
Arguments Eof {M A} out.

Definition emit {M A} (o : list M) (r : read M A) : read M A :=
  match r with
  | Got a rest o' => Got a rest (o ++ o')
  | Eof o' => Eof (o ++ o')
  end.

(** What a prompt loop printed. *)
Definition printed {M A} (r : read M A) : list M :=
  match r with
  | Got _ _ o => o
  | Eof o => o
  end.

(** An operation starts from the store, the disk and the lines to come; it
    ends with an [outcome]: the exception that left it, if any, the store,
    the disk, the lines left and what was printed. *)
Record outcome (M : Type) := Outcome {
  raised : option Py.exn;
  data : store;
  dsk : disk;
  rest : list string;
  out : list M
}.
Arguments Outcome {M} raised data dsk rest out.
Arguments raised {M} o.
Arguments data {M} o.
Arguments dsk {M} o.
Arguments rest {M} o.
Arguments out {M} o.

Definition done {M} (st : store) (dk : disk) (inp : list string) (o : list M) : outcome M :=
  Outcome None st dk inp o.

(** [input()] at the end of the input. *)
Definition eof {M} (st : store) (dk : disk) (o : list M) : outcome M :=
  Outcome (Some Py.EOFError) st dk [] o.

(** ** [sat.py]: class [SATResultsManager] *)

Module Sat.

Import Py.

(** [default_max_score] of [__init__]. *)
Definition default_max_score : Z := 1600.

(** What the methods print, one constructor for each notice (the banners
    and the hint of [_suggest_similar_names], which only reads the keys,
    are left out). *)
Inductive msg :=
  | LoadWarning
  | Saved
  | SaveError
  | ScoreNegative
  | ScoreAboveMax (m : float)
  | ScoreNotNumeric
  | NameEmpty
  | NameTooLong
  | NameExists (n : string)
  | PincodeEmpty
  | PincodeInvalid
  | Added (n : string) (s : float) (p : bool)
  | AddFailed
  | NoRecords
  | NotFound (n : string)
  | Ranking (n : string) (score : float) (rank total : Z) (percentile : float) (p : bool)
  | SameScore (k : Z)
  | CurrentScore (n : string) (s : float)
  | ScoreUpdated (n : string) (old : float) (old_p : bool) (new : float) (new_p : bool)
  | UpdateFailed
  | ToDelete (n : string) (s : float) (p : bool)
  | Deleted (n : string)
  | DeleteFailed
  | DeleteCancelled
  | CurrentMax (m : float)
  | Cancelled
  | NotPositive
  | NotNumber
  | MaxUpdated (old new : float)
  | StatusChanged (k : Z)
  | MaxFailed.

(** *** Loading and saving *)

Definition lookup_key (k : string) (d : list (string * value)) : option value :=
  snd <$> List.find (fun kv => String.eqb (fst kv) k) d.

(** [if k not in data: data[k] = v] *)
Definition setdefault (k : string) (v : value) (d : list (string * value))
  : list (string * value) :=
  match lookup_key k d with
  | Some _ => d
  | None => d ++ [(k, v)]
  end.

Definition fresh : list (string * value) :=
  [("max_score", VInt default_max_score); ("records", VDict [])]%string.

(** [load_data]: the dictionary read from the file, with the two keys
    filled in; a fresh one when the file is absent, cannot be read, is not
    JSON or holds something else than an object. *)
Definition load_data (f : file) : list (string * value) * list msg :=
  match f with
  | Absent => (fresh, [])
  | Document (VDict d) =>
      (setdefault "records" (VDict [])
         (setdefault "max_score" (VInt default_max_score) d), [])
  | Document _ | Malformed | Unreadable => (fresh, [LoadWarning])
  end.

(** [save_data]: [True] and the document on the disk, or [False] and the
    disk as it was when the file cannot be written. *)
Definition save_data (st : store) (dk : disk) : bool * disk * list msg :=
  if writable dk
  then (true, Disk (Document (dump st)) true, [Saved])
  else (false, dk, [SaveError]).

(** *** Validation *)

Definition validate_score (st : store) (score_str : string) : option float * list msg :=
  match float_of_string (strip score_str) with
  | Some score =>
      if (score <? 0)%float then (None, [ScoreNegative])
      else if (max_score st <? score)%float then (None, [ScoreAboveMax (max_score st)])
      else (Some score, [])
  | None => (None, [ScoreNotNumeric])
  end.

Definition compute_pass (st : store) (score : float) : bool :=
  (threshold_ratio * max_score st <? score)%float.

Definition validate_name (n : string) : bool * list msg :=
  let n := strip n in
  if String.eqb n "" then (false, [NameEmpty])
  else if len n >? 100 then (false, [NameTooLong])
  else (true, []).

(** The test of the pincode loop of [insert_data]: [None] when the text is
    taken, the notice otherwise. *)
Definition check_pincode (pincode : string) : option msg :=
  if String.eqb pincode "" then Some PincodeEmpty
  else if (negb (isdigit pincode) || (len pincode <? 3))%bool then Some PincodeInvalid
  else None.

(** *** Prompts *)

(** The name loop of [insert_data]; [Got None] is the [return] on a name
    that is already a key. *)
Fixpoint ask_name (recs : gmap string record) (inp : list string) : read msg (option string) :=
  match inp with
  | [] => Eof []
  | line :: inp' =>
      let n := strip line in
      match validate_name n with
      | (false, o) => emit o (ask_name recs inp')
      | (true, o) =>
          if has_key n recs then Got None inp' (o ++ [NameExists n])
          else Got (Some n) inp' o
      end
  end.

Fixpoint ask_pincode (inp : list string) : read msg string :=
  match inp with
  | [] => Eof []
  | line :: inp' =>
      let pincode := strip line in
      match check_pincode pincode with
      | Some m => emit [m] (ask_pincode inp')
      | None => Got pincode inp' []
      end
  end.

(** The score loop of [insert_data] and of [update_score]. *)
Fixpoint ask_score (st : store) (inp : list string) : read msg float :=
  match inp with
  | [] => Eof []
  | line :: inp' =>
      match validate_score st (strip line) with
      | (Some score, o) => Got score inp' o
      | (None, o) => emit o (ask_score st inp')
      end
  end.

(** The loop of [set_max_score]; [Got None] is the [return] on an empty
    line. *)
Fixpoint ask_max (inp : list string) : read msg (option float) :=
  match inp with
  | [] => Eof []
  | line :: inp' =>
      let new_max_input := strip line in
      if String.eqb new_max_input "" then Got None inp' [Cancelled]
      else
        match float_of_string new_max_input with
        | Some new_max =>
            if (new_max <=? 0)%float then emit [NotPositive] (ask_max inp')
            else Got (Some new_max) inp' []
        | None => emit [NotNumber] (ask_max inp')
        end
  end.

(** *** Operations *)

Definition insert_data (st : store) (dk : disk) (inp : list string) : outcome msg :=
  match ask_name (records st) inp with
  | Eof o => eof st dk o
  | Got None inp o => done st dk inp o
  | Got (Some n) inp o1 =>
      match inp with
      | l1 :: l2 :: l3 :: inp =>
          let address := strip l1 in
          let city := strip l2 in
          let country := strip l3 in
          match ask_pincode inp with
          | Eof o2 => eof st dk (o1 ++ o2)
          | Got pincode inp o2 =>
              match ask_score st inp with
              | Eof o3 => eof st dk (o1 ++ o2 ++ o3)
              | Got score inp o3 =>
                  let passed := compute_pass st score in
                  let record := MkRecord n address city country pincode score passed in
                  let st1 := Store (max_score st) (<[n := record]> (records st)) in
                  match save_data st1 dk with
                  | (true, dk', o4) =>
                      done st1 dk' inp (o1 ++ o2 ++ o3 ++ o4 ++ [Added n score passed])
                  | (false, dk', o4) =>
                      let st2 := Store (max_score st1) (delete n (records st1)) in
                      done st2 dk' inp (o1 ++ o2 ++ o3 ++ o4 ++ [AddFailed])
                  end
              end
          end
      | _ => eof st dk o1
      end
  end.

(** The scores of the rank query:
    [[float(r["sat_score"]) for r in self.data["records"].values()]]. *)
Definition all_scores (st : store) : list float :=
  sat_score <$> values (records st).

Definition higher_count (st : store) (my_score : float) : Z :=
  count_if (fun score => (my_score <? score)%float) (all_scores st).

Definition same_score_count (st : store) (my_score : float) : Z :=
  count_if (fun score => (score =? my_score)%float) (all_scores st).

Definition get_rank (st : store) (dk : disk) (inp : list string) : outcome msg :=
  if is_empty (records st) then done st dk inp [NoRecords]
  else
    match inp with
    | [] => eof st dk []
    | line :: inp =>
        let n := strip line in
        match records st !! n with
        | None => done st dk inp [NotFound n]
        | Some candidate =>
            let my_score := sat_score candidate in
            let rank := higher_count st my_score + 1 in
            let same := same_score_count st my_score in
            let total_candidates := Z.of_nat (length (all_scores st)) in
            match int_truediv (total_candidates - rank + 1) total_candidates with
            | Raise e => Outcome (Some e) st dk inp []
            | Ok q =>
                let percentile := (q * 100)%float in
                done st dk inp
                  (Ranking n my_score rank total_candidates percentile (passed candidate)
                   :: (if same >? 1 then [SameScore same] else []))
            end
        end
    end.

Definition update_score (st : store) (dk : disk) (inp : list string) : outcome msg :=
  if is_empty (records st) then done st dk inp [NoRecords]
  else
    match inp with
    | [] => eof st dk []
    | line :: inp =>
        let n := strip line in
        match records st !! n with
        | None => done st dk inp [NotFound n]
        | Some current_record =>
            let o1 := [CurrentScore n (sat_score current_record)] in
            match ask_score st inp with
            | Eof o2 => eof st dk (o1 ++ o2)
            | Got new_score inp o2 =>
                let old_score := sat_score current_record in
                let old_status := passed current_record in
                let r1 := set_score new_score (compute_pass st new_score) current_record in
                let st1 := Store (max_score st) (<[n := r1]> (records st)) in
                match save_data st1 dk with
                | (true, dk', o3) =>
                    done st1 dk' inp
                      (o1 ++ o2 ++ o3 ++
                       [ScoreUpdated n old_score old_status new_score (passed r1)])
                | (false, dk', o3) =>
                    let r2 := set_score old_score old_status r1 in
                    let st2 := Store (max_score st1) (<[n := r2]> (records st1)) in
                    done st2 dk' inp (o1 ++ o2 ++ o3 ++ [UpdateFailed])
                end
            end
        end
    end.

Definition delete_one_record (st : store) (dk : disk) (inp : list string) : outcome msg :=
  if is_empty (records st) then done st dk inp [NoRecords]
  else
    match inp with
    | [] => eof st dk []
    | line :: inp =>
        let n := strip line in
        match records st !! n with
        | None => done st dk inp [NotFound n]
        | Some record =>
            let o1 := [ToDelete (name record) (sat_score record) (passed record)] in
            match inp with
            | [] => eof st dk o1
            | line2 :: inp =>
                let confirm := strip line2 in
                if String.eqb confirm ("DELETE " ++ n) then
                  let backup_record := record in
                  let st1 := Store (max_score st) (delete n (records st)) in
                  match save_data st1 dk with
                  | (true, dk', o2) => done st1 dk' inp (o1 ++ o2 ++ [Deleted n])
                  | (false, dk', o2) =>
                      let st2 := Store (max_score st1) (<[n := backup_record]> (records st1)) in
                      done st2 dk' inp (o1 ++ o2 ++ [DeleteFailed])
                  end
                else done st dk inp (o1 ++ [DeleteCancelled])
            end
        end
    end.

(** The loop of [set_max_score] over the records:
    [record["passed"] = self.compute_pass(record["sat_score"])]. *)
Definition recompute (st : store) : store :=
  Store (max_score st)
        ((fun r => set_passed (compute_pass st (sat_score r)) r) <$> records st).

(** [updated_count]: the records whose flag the loop changed. *)
Definition updated_count (st : store) : Z :=
  count_if (fun r => negb (Bool.eqb (passed r) (compute_pass st (sat_score r))))
           (values (records st)).

Definition set_max_score (st : store) (dk : disk) (inp : list string) : outcome msg :=
  let o1 := [CurrentMax (max_score st)] in
  match ask_max inp with
  | Eof o2 => eof st dk (o1 ++ o2)
  | Got None inp o2 => done st dk inp (o1 ++ o2)
  | Got (Some new_max) inp o2 =>
      let old_max := max_score st in
      let st1 := Store new_max (records st) in
      let updated := updated_count st1 in
      let st2 := recompute st1 in
      match save_data st2 dk with
      | (true, dk', o3) =>
          done st2 dk' inp
            (o1 ++ o2 ++ o3 ++ MaxUpdated old_max new_max
             :: (if updated >? 0 then [StatusChanged updated] else []))
      | (false, dk', o3) =>
          let st3 := recompute (Store old_max (records st2)) in
          done st3 dk' inp (o1 ++ o2 ++ o3 ++ [MaxFailed])
      end
  end.

(** The rank that the query printed. *)
Definition reported_rank (o : outcome msg) : option Z :=
  match out o with
  | Ranking _ _ rank _ _ _ :: _ => Some rank
  | _ => None
  end.

(** The operations that change the store, as the menu offers them. *)
Inductive command := Insert | Update | Delete | SetMax.

Definition exec (c : command) : store -> disk -> list string -> outcome msg :=
  match c with
  | Insert => insert_data
  | Update => update_score
  | Delete => delete_one_record
  | SetMax => set_max_score
  end.

(** What each of them prints after a failed [save_data]. *)
Definition failure_notice (c : command) : msg :=
  match c with
  | Insert => AddFailed
  | Update => UpdateFailed
  | Delete => DeleteFailed
  | SetMax => MaxFailed
  end.

End Sat.

(** ** [sat_manager.py]: the procedural script *)

Module SatManager.

Import Py.

Inductive msg :=
  | Saved
  | NameEmpty
  | NameExists
  | ScoreNotNumeric
  | NoRecords
  | NotFound
  | Ranking (n : string) (score : float) (rank total : Z)
  | SameScore (k : Z)
  | ScoreUpdated
  | Deleted
  | DeleteCancelled
  | CurrentMax (m : float)
  | MaxUnchanged
  | NotPositive
  | NotNumber
  | MaxUpdated (m : float).

(** *** Loading and saving *)

(** [sub in s] on two [str]. *)
Fixpoint contains (sub s : string) : bool :=
  (String.prefix sub s ||
   match s with
   | String _ s' => contains sub s'
   | EmptyString => false
   end)%bool.

Definition is_str (k : string) (v : value) : bool :=
  match v with
  | VStr s => String.eqb s k
  | _ => false
  end.

(** [k not in data], for whatever [json.load] returned. *)
Definition key_missing (k : string) (data : value) : result bool :=
  match data with
  | VDict d => Ok (negb (existsb (fun kv => String.eqb (fst kv) k) d))
  | VList l => Ok (negb (existsb (is_str k) l))
  | VStr s => Ok (negb (contains k s))
  | VNone | VBool _ | VInt _ | VFloat _ => Raise TypeError
  end.

(** [data[k] = v] for a key that [data] does not hold. *)
Definition set_key (k : string) (v : value) (data : value) : result value :=
  match data with
  | VDict d => Ok (VDict (d ++ [(k, v)]))
  | _ => Raise TypeError
  end.

(** [if k not in data: data[k] = v] *)
Definition ensure_key (k : string) (v : value) (data : value) : result value :=
  match key_missing k data with
  | Ok true => set_key k v data
  | Ok false => Ok data
  | Raise e => Raise e
  end.

Definition fresh : value :=
  VDict [("max_score", VInt 100); ("records", VDict [])]%string.

(** [load_data]: whatever the file holds, or a fresh dictionary when it is
    absent or [open] or [json.load] raise; then the two keys are ensured,
    outside of the [try]. *)
Definition load_data (f : file) : result value :=
  let data :=
    match f with
    | Document v => v
    | Absent | Unreadable | Malformed => fresh
    end in
  match ensure_key "max_score" (VInt 100) data with
  | Ok data => ensure_key "records" (VDict []) data
  | Raise e => Raise e
  end.

(** [save_data]: the document on the disk, or the [IOError] of [open]. *)
Definition save_data (st : store) (dk : disk) : result disk * list msg :=
  if writable dk
  then (Ok (Disk (Document (dump st)) true), [Saved])
  else (Raise IOError, []).

(** *** The pass rule *)

Definition compute_pass (score max_score : value) : result bool :=
  match to_float score with
  | Raise _ => Ok false
  | Ok s =>
      match to_float max_score with
      | Ok m => Ok (threshold_ratio * m <? s)%float
      | Raise e => Raise e
      end
  end.

(** *** Prompts *)

(** The score loop of [insert_data] and of [update_score]. *)
Fixpoint ask_score (inp : list string) : read msg float :=
  match inp with
  | [] => Eof []
  | line :: inp' =>
      match float_of_string (strip line) with
      | Some score => Got score inp' []
      | None => emit [ScoreNotNumeric] (ask_score inp')
      end
  end.

(** The loop of [set_max_score] up to the number it accepts; [Got None] is
    the [return] on an empty line. *)
Fixpoint ask_max (inp : list string) : read msg (option float) :=
  match inp with
  | [] => Eof []
  | line :: inp' =>
      let new_max := strip line in
      if String.eqb new_max "" then Got None inp' [MaxUnchanged]
      else
        match float_of_string new_max with
        | Some nm =>
            if (nm <=? 0)%float then emit [NotPositive] (ask_max inp')
            else Got (Some nm) inp' []
        | None => emit [NotNumber] (ask_max inp')
        end
  end.

(** *** Operations *)

(** The end of an operation that writes the store: [save_data(data)], then
    the notice [after], if any. *)
Definition save_then (st : store) (dk : disk) (inp : list string)
    (before after : list msg) : outcome msg :=
  match save_data st dk with
  | (Ok dk', o) => done st dk' inp (before ++ o ++ after)
  | (Raise e, o) => Outcome (Some e) st dk inp (before ++ o)
  end.

Definition insert_data (st : store) (dk : disk) (inp : list string) : outcome msg :=
  match inp with
  | [] => eof st dk []
  | line :: inp =>
      let n := strip line in
      if String.eqb n "" then done st dk inp [NameEmpty]
      else if has_key n (records st) then done st dk inp [NameExists]
      else
        match inp with
        | l1 :: l2 :: l3 :: l4 :: inp =>
            let address := strip l1 in
            let city := strip l2 in
            let country := strip l3 in
            let pincode := strip l4 in
            match ask_score inp with
            | Eof o => eof st dk o
            | Got score inp o =>
                match compute_pass (VFloat score) (VFloat (max_score st)) with
                | Raise e => Outcome (Some e) st dk inp o
                | Ok passed =>
                    let record := MkRecord n address city country pincode score passed in
                    let st1 := Store (max_score st) (<[n := record]> (records st)) in
                    save_then st1 dk inp o []
                end
            end
        | _ => eof st dk []
        end
  end.

Definition all_scores (st : store) : list float :=
  sat_score <$> values (records st).

Definition get_rank (st : store) (dk : disk) (inp : list string) : outcome msg :=
  if is_empty (records st) then done st dk inp [NoRecords]
  else
    match inp with
    | [] => eof st dk []
    | line :: inp =>
        let n := strip line in
        match records st !! n with
        | None => done st dk inp [NotFound]
        | Some r =>
            let my_score := sat_score r in
            let higher_count :=
              count_if (fun s => (my_score <? s)%float) (all_scores st) in
            let rank := 1 + higher_count in
            let same_score_count :=
              count_if (fun s => (s =? my_score)%float) (all_scores st) in
            let total := Z.of_nat (length (all_scores st)) in
            done st dk inp
              (Ranking n my_score rank total
               :: (if same_score_count >? 1 then [SameScore same_score_count] else []))
        end
    end.

Definition update_score (st : store) (dk : disk) (inp : list string) : outcome msg :=
  if is_empty (records st) then done st dk inp [NoRecords]
  else
    match inp with
    | [] => eof st dk []
    | line :: inp =>
        let n := strip line in
        match records st !! n with
        | None => done st dk inp [NotFound]
        | Some r =>
            match ask_score inp with
            | Eof o => eof st dk o
            | Got new_score inp o =>
                match compute_pass (VFloat new_score) (VFloat (max_score st)) with
                | Raise e =>
                    let r1 := set_score new_score (passed r) r in
                    Outcome (Some e) (Store (max_score st) (<[n := r1]> (records st))) dk inp o
                | Ok p =>
                    let st1 := Store (max_score st) (<[n := set_score new_score p r]> (records st)) in
                    save_then st1 dk inp o [ScoreUpdated]
                end
            end
        end
    end.

Definition delete_one_record (st : store) (dk : disk) (inp : list string) : outcome msg :=
  if is_empty (records st) then done st dk inp [NoRecords]
  else
    match inp with
    | [] => eof st dk []
    | line :: inp =>
        let n := strip line in
        if has_key n (records st) then
          match inp with
          | [] => eof st dk []
          | line2 :: inp =>
              let confirm := lower (strip line2) in
              if String.eqb confirm "yes" then
                save_then (Store (max_score st) (delete n (records st))) dk inp [] [Deleted]
              else done st dk inp [DeleteCancelled]
          end
        else done st dk inp [NotFound]
    end.

(** [rec["passed"] = compute_pass(rec["sat_score"], data["max_score"])] for
    every record; the scores and the maximum are numbers here, so that no
    conversion fails. *)
Definition recompute_one (m : float) (r : record) : record :=
  match compute_pass (VFloat (sat_score r)) (VFloat m) with
  | Ok p => set_passed p r
  | Raise _ => r
  end.

Definition recompute (st : store) : store :=
  Store (max_score st) (recompute_one (max_score st) <$> records st).

Definition set_max_score (st : store) (dk : disk) (inp : list string) : outcome msg :=
  let o1 := [CurrentMax (max_score st)] in
  match ask_max inp with
  | Eof o2 => eof st dk (o1 ++ o2)
  | Got None inp o2 => done st dk inp (o1 ++ o2)
  | Got (Some nm) inp o2 =>
      save_then (recompute (Store nm (records st))) dk inp (o1 ++ o2) [MaxUpdated nm]
  end.

(** The rank that the query printed. *)
Definition reported_rank (o : outcome msg) : option Z :=
  match out o with
  | Ranking _ _ rank _ :: _ => Some rank
  | _ => None
  end.

Inductive command := Insert | Update | Delete | SetMax.

Definition exec (c : command) : store -> disk -> list string -> outcome msg :=
  match c with
  | Insert => insert_data
  | Update => update_score
  | Delete => delete_one_record
  | SetMax => set_max_score
  end.

End SatManager.

(** ** [sat.py]: the queries and the menu *)

Module SatQueries.

Import Py.

(** What these methods print: the notices of the operations above, and
    their own (banners and the menu are left out). *)
Inductive line :=
  | Said (m : Sat.msg)
  | DidYouMean (names : list string)
  | AllRecords (v : value)
  | StatisticsFor (n : Z)
  | OverallAverage (avg max_score percent : float)
  | PassRate (rate : float) (passed failed : Z)
  | Threshold (t : float)
  | AveragePassed (a : float)
  | AverageFailed (a : float)
  | InvalidFilter
  | NoneWithStatus (want_pass : bool)
  | Filtered (want_pass : bool) (n : Z) (v : value)
  | SaveSummary (n : Z) (max_score : float)
  | SaveFailed
  | InvalidChoice
  | Goodbye
  | Unexpected (e : exn).

(** [d.keys()] *)
Definition keys (recs : gmap string record) : list string := (map_to_list recs).*1.

(** The records of the document as [json.dumps] shows them. *)
Definition dump_records (recs : gmap string record) : value :=
  VDict (prod_map id dump_record <$> map_to_list recs).

(** *** [_suggest_similar_names] *)

(** [[n for n in keys if name.lower() in n.lower() or n.lower() in name.lower()]] *)
Definition similar (name : string) (ks : list string) : list string :=
  List.filter
    (fun n => (SatManager.contains (lower name) (lower n)
               || SatManager.contains (lower n) (lower name))%bool) ks.

(** The hint, if any name is similar: the first three of them. *)
Definition suggest_similar_names (name : string) (ks : list string) : list line :=
  match similar name ks with
  | [] => []
  | names => [DidYouMean (take 3 names)]
  end.

(** What [get_rank], [update_score] and [delete_one_record] print in full:
    each of them calls [_suggest_similar_names] right after the notice of
    a name that is no key. *)
Definition narrate (ks : list string) (o : list Sat.msg) : list line :=
  flat_map
    (fun m => Said m :: match m with
                        | Sat.NotFound n => suggest_similar_names n ks
                        | _ => []
                        end) o.

Definition narrated (st : store) (o : outcome Sat.msg) : outcome line :=
  Outcome (raised o) (data o) (dsk o) (rest o) (narrate (keys (records st)) (out o)).

(** *** [view_all_data] *)

Definition view_all_data (st : store) (dk : disk) (inp : list string) : outcome line :=
  if is_empty (records st) then done st dk inp [Said Sat.NoRecords]
  else
    done st dk inp
      [AllRecords
         (VDict [("max_score", VFloat (max_score st));
                 ("total_candidates", VInt (Z.of_nat (size (records st))));
                 ("records", dump_records (records st))]%string)].

(** *** [calculate_average] *)

(** [x / y] on two [float]: dividing by zero raises. *)
Definition float_div (x y : float) : result float :=
  if (y =? 0)%float then Raise ZeroDivisionError else Ok (x / y)%float.

Section Average.

(** The builtin [sum] on a list of [float]. *)
Variable fsum : list float -> float.

(** [sum(l) / len(l)]: a [float] by an integer, which is converted; the
    integer 0 raises. *)
Definition mean (l : list float) : result float :=
  match length l with
  | O => Raise ZeroDivisionError
  | S _ => Ok (fsum l / float_of_Z (Z.of_nat (length l)))%float
  end.

(** The body of [calculate_average] past the test for an empty store, on
    the records [rs] in the order in which the dictionary yields them: what
    is printed, and the exception that ends it, if any. *)
Definition statistics (m : float) (rs : list record) : list line * option exn :=
  let scores := sat_score <$> rs in
  let passed_scores := sat_score <$> List.filter passed rs in
  let failed_scores := sat_score <$> List.filter (fun r => negb (passed r)) rs in
  let n := Z.of_nat (length scores) in
  let np := Z.of_nat (length passed_scores) in
  let nf := Z.of_nat (length failed_scores) in
  match mean scores with
  | Raise e => ([], Some e)
  | Ok avg_overall =>
      match int_truediv np n with
      | Raise e => ([], Some e)
      | Ok q =>
          let pass_rate := (q * 100)%float in
          let o1 := [StatisticsFor n] in
          match float_div avg_overall m with
          | Raise e => (o1, Some e)
          | Ok ratio =>
              let o2 := o1 ++ [OverallAverage avg_overall m (ratio * 100)%float;
                               PassRate pass_rate np nf;
                               Threshold (threshold_ratio * m)%float] in
              match (match passed_scores with
                     | [] => Ok []
                     | _ => match mean passed_scores with
                            | Ok a => Ok [AveragePassed a]
                            | Raise e => Raise e
                            end
                     end) with
              | Raise e => (o2, Some e)
              | Ok o3 =>
                  match failed_scores with
                  | [] => (o2 ++ o3, None)
                  | _ => match mean failed_scores with
                         | Ok a => (o2 ++ o3 ++ [AverageFailed a], None)
                         | Raise e => (o2 ++ o3, Some e)
                         end
                  end
              end
          end
      end
  end.

Definition calculate_average (st : store) (dk : disk) (inp : list string) : outcome line :=
  if is_empty (records st) then done st dk inp [Said Sat.NoRecords]
  else
    let '(o, e) := statistics (max_score st) (values (records st)) in
    Outcome e st dk inp o.

End Average.

(** *** [filter_by_pass_fail] *)

(** [[r for r in values if r.get("passed") == want_pass]] *)
Definition with_status (want_pass : bool) (rs : list record) : list record :=
  List.filter (fun r => Bool.eqb (passed r) want_pass) rs.

(** The answer to the choice [pass] or [fail], on the records [rs] as the
    dictionary yields them. *)
Definition filter_answer (want_pass : bool) (rs : list record) : list line :=
  match with_status want_pass rs with
  | [] => [NoneWithStatus want_pass]
  | filtered_records =>
      [Filtered want_pass (Z.of_nat (length filtered_records))
         (VList (dump_record <$> filtered_records))]
  end.

Definition filter_by_pass_fail (st : store) (dk : disk) (inp : list string) : outcome line :=
  if is_empty (records st) then done st dk inp [Said Sat.NoRecords]
  else
    match inp with
    | [] => eof st dk []
    | l :: inp =>
        let choice := lower (strip l) in
        if (negb (String.eqb choice "pass") && negb (String.eqb choice "fail"))%bool
        then done st dk inp [InvalidFilter]
        else done st dk inp (filter_answer (String.eqb choice "pass") (values (records st)))
    end.

(** *** [explicit_save] *)

Definition explicit_save (st : store) (dk : disk) (inp : list string) : outcome line :=
  match Sat.save_data st dk with
  | (true, dk', o) =>
      done st dk' inp
        ((Said <$> o) ++ [SaveSummary (Z.of_nat (size (records st))) (max_score st)])
  | (false, dk', o) => done st dk' inp ((Said <$> o) ++ [SaveFailed])
  end.

(** *** [run] *)

Section Menu.

Variable fsum : list float -> float.

(** The branch of the menu for a choice other than [9]. *)
Definition dispatch (choice : string) (st : store) (dk : disk) (inp : list string)
  : outcome line :=
  if String.eqb choice "1" then narrated st (Sat.insert_data st dk inp)
  else if String.eqb choice "2" then view_all_data st dk inp
  else if String.eqb choice "3" then narrated st (Sat.get_rank st dk inp)
  else if String.eqb choice "4" then narrated st (Sat.update_score st dk inp)
  else if String.eqb choice "5" then narrated st (Sat.delete_one_record st dk inp)
  else if String.eqb choice "6" then calculate_average fsum st dk inp
  else if String.eqb choice "7" then filter_by_pass_fail st dk inp
  else if String.eqb choice "8" then explicit_save st dk inp
  else if String.eqb choice "10" then narrated st (Sat.set_max_score st dk inp)
  else done st dk inp [InvalidChoice].

(** How a session stands: it left the loop at the choice [9], it left with
    an exception, or it is still in the loop after the turns it was
    given. *)
Inductive status :=
  | Exited
  | Crashed (e : exn)
  | Looping.

Record session := Session {
  state : status;
  final : store;
  final_disk : disk;
  unread : list string;
  printed_lines : list line
}.

(** [run], for at most [turns] turns of its loop.  A turn reads the choice,
    runs its branch, and waits for one more line; whatever exception comes
    up, the end of the input included, is caught and printed, and the loop
    goes on. *)
Fixpoint run (turns : nat) (st : store) (dk : disk) (inp : list string)
    (o : list line) : session :=
  match turns with
  | O => Session Looping st dk inp o
  | S turns =>
      match inp with
      | [] => run turns st dk [] (o ++ [Unexpected EOFError])
      | l :: inp =>
          let choice := strip l in
          if String.eqb choice "9" then Session Exited st dk inp (o ++ [Goodbye])
          else
            let r := dispatch choice st dk inp in
            match raised r with
            | Some e => run turns (data r) (dsk r) (rest r) (o ++ out r ++ [Unexpected e])
            | None =>
                match rest r with
                | [] => run turns (data r) (dsk r) [] (o ++ out r ++ [Unexpected EOFError])
                | _ :: inp' => run turns (data r) (dsk r) inp' (o ++ out r)
                end
            end
      end
  end.

End Menu.

End SatQueries.

(** ** [sat_manager.py]: the queries and the menu *)

Module ManagerQueries.

Import Py.

Inductive line :=
  | Said (m : SatManager.msg)
  | AllRecords (v : value)
  | Average (n : Z) (avg max_score : float)
  | InvalidFilter
  | NoneWithStatus (want_pass : bool)
  | Filtered (v : value)
  | InvalidChoice
  | Goodbye.

Definition lifted (o : outcome SatManager.msg) : outcome line :=
  Outcome (raised o) (data o) (dsk o) (rest o) (Said <$> out o).

Definition view_all_data (st : store) (dk : disk) (inp : list string) : outcome line :=
  if is_empty (records st) then done st dk inp [Said SatManager.NoRecords]
  else
    done st dk inp
      [AllRecords
         (VDict [("max_score", VFloat (max_score st));
                 ("records", SatQueries.dump_records (records st))]%string)].

Section Average.

Variable fsum : list float -> float.

Definition calculate_average (st : store) (dk : disk) (inp : list string) : outcome line :=
  if is_empty (records st) then done st dk inp [Said SatManager.NoRecords]
  else
    let scores := sat_score <$> values (records st) in
    match SatQueries.mean fsum scores with
    | Raise e => Outcome (Some e) st dk inp []
    | Ok avg => done st dk inp [Average (Z.of_nat (length scores)) avg (max_score st)]
    end.

End Average.

Definition filter_answer (want_pass : bool) (rs : list record) : list line :=
  match SatQueries.with_status want_pass rs with
  | [] => [NoneWithStatus want_pass]
  | results => [Filtered (VList (dump_record <$> results))]
  end.

Definition filter_by_pass_fail (st : store) (dk : disk) (inp : list string) : outcome line :=
  if is_empty (records st) then done st dk inp [Said SatManager.NoRecords]
  else
    match inp with
    | [] => eof st dk []
    | l :: inp =>
        let choice := lower (strip l) in
        if (negb (String.eqb choice "pass") && negb (String.eqb choice "fail"))%bool
        then done st dk inp [InvalidFilter]
        else done st dk inp (filter_answer (String.eqb choice "pass") (values (records st)))
    end.

Definition explicit_save (st : store) (dk : disk) (inp : list string) : outcome line :=
  lifted (SatManager.save_then st dk inp [] []).

Section Menu.

Variable fsum : list float -> float.

Definition dispatch (choice : string) (st : store) (dk : disk) (inp : list string)
  : outcome line :=
  if String.eqb choice "1" then lifted (SatManager.insert_data st dk inp)
  else if String.eqb choice "2" then view_all_data st dk inp
  else if String.eqb choice "3" then lifted (SatManager.get_rank st dk inp)
  else if String.eqb choice "4" then lifted (SatManager.update_score st dk inp)
  else if String.eqb choice "5" then lifted (SatManager.delete_one_record st dk inp)
  else if String.eqb choice "6" then calculate_average fsum st dk inp
  else if String.eqb choice "7" then filter_by_pass_fail st dk inp
  else if String.eqb choice "8" then explicit_save st dk inp
  else if String.eqb choice "10" then lifted (SatManager.set_max_score st dk inp)
  else done st dk inp [InvalidChoice].

Record session := Session {
  state : SatQueries.status;
  final : store;
  final_disk : disk;
  unread : list string;
  printed_lines : list line
}.

(** The loop of [menu_loop], from the store that [load_data] gave, for at
    most [turns] turns.  No exception is caught here: the end of the input
    or a failed write ends the session. *)
Fixpoint menu_loop (turns : nat) (st : store) (dk : disk) (inp : list string)
    (o : list line) : session :=
  match turns with
  | O => Session SatQueries.Looping st dk inp o
  | S turns =>
      match inp with
      | [] => Session (SatQueries.Crashed EOFError) st dk [] o
      | l :: inp =>
          let choice := strip l in
          if String.eqb choice "9" then Session SatQueries.Exited st dk inp (o ++ [Goodbye])
          else
            let r := dispatch choice st dk inp in
            match raised r with
            | Some e => Session (SatQueries.Crashed e) (data r) (dsk r) (rest r) (o ++ out r)
            | None => menu_loop turns (data r) (dsk r) (rest r) (o ++ out r)
            end
      end
  end.

End Menu.

End ManagerQueries.

(** ** The properties of the specification *)

(** The pass rule: [sat_score > 0.3 * max_score]. *)
Definition pass_rule (m s : float) : bool := (threshold_ratio * m <? s)%float.

(** Every record carries the flag that the pass rule gives it under the
    maximum of the store. *)
Definition store_ok (st : store) : Prop :=
  forall n r, records st !! n = Some r -> passed r = pass_rule (max_score st) (sat_score r).

(** The disk is untouched, or holds the dump of a store that satisfies the
    pass rule. *)
Definition written_ok (before after : disk) : Prop :=
  after = before \/ exists w, content after = Document (dump w) /\ store_ok w.

(** The store that both scripts start from when there is no data file, up
    to the default maximum. *)
Definition empty_store (m : float) : store := Store m ∅.

(** The number of records with a score strictly greater than [s], and with
    a score equal to [s]. *)
Definition greater_count (st : store) (s : float) : Z :=
  Z.of_nat (size (filter (fun kv : string * record => (s <? sat_score kv.2)%float = true)
                         (records st))).

Definition equal_count (st : store) (s : float) : Z :=
  Z.of_nat (size (filter (fun kv : string * record => (sat_score kv.2 =? s)%float = true)
                         (records st))).

(** The number of records. *)
Definition total (st : store) : Z := Z.of_nat (size (records st)).

(** The file holds no JSON object; the file holds no JSON value at all. *)
Definition not_an_object (f : file) : Prop :=
  match f with
  | Document (Py.VDict _) => False
  | _ => True
  end.

Definition no_document (f : file) : Prop :=
  match f with
  | Document _ => False
  | _ => True
  end.

(** A pincode as the specification wants it: not empty, digits only, three
    characters at least. *)
Definition pincode_ok (p : string) : Prop :=
  p <> ""%string /\ Py.all_chars Py.isdigit_char p = true /\ 3 <= Py.len p.

(** ** Sample data *)

Definition bob : record :=
  MkRecord "bob" "1 Main St" "Pune" "India" "411001" 500 true.

Definition amy : record :=
  MkRecord "amy" "2 High St" "Delhi" "India" "110001" 500 true.

Definition joe : record :=
  MkRecord "joe" "3 Low St" "Agra" "India" "282001" 300 false.

Definition one_store : store := Store 1600 {[ "bob"%string := bob ]}.

Definition three_store : store :=
  Store 1600 (<[ "joe"%string := joe ]> (<[ "amy"%string := amy ]> {[ "bob"%string := bob ]})).

Definition good_disk : disk := Disk Absent true.

Definition bad_disk : disk := Disk Absent false.

(** Every record is kept under its own name. *)
Definition well_keyed (st : store) : Prop :=
  forall n r, records st !! n = Some r -> name r = n.

(** A record with its score and its flag put aside: what [update_score] and
    [set_max_score] leave alone. *)
Definition identity_of (r : record) : record := set_score 0 false r.

(** A store whose flags are out of date: bob has passed, and is not marked. *)
Definition stale_store : store :=
  Store 1600 {[ "bob"%string := MkRecord "bob" "1 Main St" "Pune" "India" "411001" 500 false ]}.

(** The naive sum of a list of [float], from the left, as [sum] computes it
    before Python 3.12. *)
Definition naive_sum (l : list float) : float := fold_left PrimFloat.add l 0%float.

(** An outcome that leaves the store [st] and the disk [dk] as they were. *)
Definition untouched {M} (st : store) (dk : disk) (o : outcome M) : Prop :=
  data o = st /\ dsk o = dk.

(** A prompt loop hands back fewer lines than it was given. *)
Definition shorter {M A} (inp : list string) (x : read M A) : Prop :=
  match x with
  | Got _ rest _ => (length rest < length inp)%nat
  | Eof _ => True
  end.

(** A name as the prompt of [insert_data] in [sat.py] takes it: without
    blanks around it, not empty, of 100 characters at most; and as the
    prompt of [sat_manager.py] takes it: without blanks around it and not
    empty. *)
Definition valid_name (n : string) : Prop :=
  Py.strip n = n /\ n <> ""%string /\ Py.len n <= 100.

Definition plain_name (n : string) : Prop :=
  Py.strip n = n /\ n <> ""%string.

Definition names_valid (st : store) : Prop :=
  forall n r, records st !! n = Some r -> valid_name n.

Definition names_plain (st : store) : Prop :=
  forall n r, records st !! n = Some r -> plain_name n.

(** The text starts with no character of the kind [p]. *)
Definition starts_clean (p : ascii -> bool) (s : string) : Prop :=
  match s with
  | String c _ => p c = false
  | EmptyString => True
  end.

(** ** Comparisons of binary64 numbers *)

Section Floats.

(** Two numbers that compare equal are the same, or are two zeros. *)
Lemma SFeqb_true a b :
  SFeqb a b = true ->
  a = b \/ exists s1 s2, a = S754_zero s1 /\ b = S754_zero s2.
Proof.
  unfold SFeqb. destruct a as [sa|sa| |sa ma ea], b as [sb|sb| |sb mb eb]; simpl;
    try discriminate; try (destruct sa; discriminate); try (destruct sb; discriminate).
  - intros _. right. eauto.
  - destruct sa, sb; try discriminate; by left.
  - destruct sa, sb; try discriminate.
    + destruct (Z.compare_spec ea eb) as [->| |]; try discriminate.
      destruct (Pos.compare_cont Eq ma mb) eqn:Hm; try discriminate.
      intros _. left. by rewrite (Pos.compare_eq _ _ Hm).
    + destruct (Z.compare_spec ea eb) as [->| |]; try discriminate.
      destruct (Pos.compare_cont Eq ma mb) eqn:Hm; try discriminate.
      intros _. left. by rewrite (Pos.compare_eq _ _ Hm).
Qed.

Lemma SFltb_eqb_l a b s : SFeqb a b = true -> SFltb a s = SFltb b s.
Proof.
  intros [->|(s1 & s2 & -> & ->)]%SFeqb_true; [done|].
  by destruct s.
Qed.

Lemma SFeqb_eqb_r a b s : SFeqb a b = true -> SFeqb s a = SFeqb s b.
Proof.
  intros [->|(s1 & s2 & -> & ->)]%SFeqb_true; [done|].
  by destruct s.
Qed.

(** [x == y] makes [x] and [y] alike in the comparisons of the rank query. *)
Lemma float_ltb_eqb_l (x y s : float) :
  (x =? y)%float = true -> (x <? s)%float = (y <? s)%float.
Proof. rewrite FloatAxioms.eqb_spec, !ltb_spec. apply SFltb_eqb_l. Qed.

Lemma float_eqb_eqb_r (x y s : float) :
  (x =? y)%float = true -> (s =? x)%float = (s =? y)%float.
Proof. rewrite !FloatAxioms.eqb_spec. apply SFeqb_eqb_r. Qed.

End Floats.

(** ** Counting *)

Section Counting.

Import Py.

Lemma fold_add_ones {A} (l : list A) a :
  fold_left Z.add (List.map (fun _ => 1) l) a = a + Z.of_nat (length l).
Proof.
  revert a. induction l as [|x l IH]; intros a; simpl; [lia|].
  rewrite IH. lia.
Qed.

Lemma count_if_length {A} (p : A -> bool) l :
  count_if p l = Z.of_nat (length (List.filter p l)).
Proof. unfold count_if. by rewrite fold_add_ones. Qed.

Lemma count_if_cons {A} (p : A -> bool) x l :
  count_if p (x :: l) = (if p x then 1 else 0) + count_if p l.
Proof. rewrite !count_if_length. simpl. destruct (p x); simpl; lia. Qed.

Lemma count_if_perm {A} (p : A -> bool) l1 l2 :
  l1 ≡ₚ l2 -> count_if p l1 = count_if p l2.
Proof.
  induction 1 as [|x l1 l2 _ IH|x y l|l1 l2 l3 _ IH1 _ IH2];
    rewrite ?count_if_cons; lia.
Qed.

Lemma count_if_fmap {A B} (f : A -> B) (p : B -> bool) l :
  count_if p (f <$> l) = count_if (fun x => p (f x)) l.
Proof.
  induction l as [|x l IH]; [done|].
  rewrite fmap_cons, !count_if_cons. by rewrite IH.
Qed.

Lemma count_if_ext {A} (p q : A -> bool) l :
  (forall x, x ∈ l -> p x = q x) -> count_if p l = count_if q l.
Proof.
  induction l as [|x l IH]; intros H; [done|].
  rewrite !count_if_cons, IH.
  - rewrite H; [done|]. by left.
  - intros y Hy. apply H. by right.
Qed.

Lemma count_if_none {A} (p : A -> bool) l :
  (forall x, x ∈ l -> p x = false) -> count_if p l = 0.
Proof.
  induction l as [|x l IH]; intros H; [done|].
  rewrite count_if_cons, IH.
  - rewrite H; [done|]. by left.
  - intros y Hy. apply H. by right.
Qed.

(** Counting over the values of a dictionary is counting its entries. *)
Lemma count_if_values (p : record -> bool) (recs : gmap string record) :
  count_if p (values recs)
  = Z.of_nat (size (filter (fun kv : string * record => p kv.2 = true) recs)).
Proof.
  unfold values. induction recs as [|k r recs Hk IH] using map_ind.
  - by rewrite map_filter_empty, map_to_list_empty, map_size_empty.
  - rewrite (count_if_perm _ _ _ (fmap_Permutation snd _ _ (map_to_list_insert recs k r Hk))).
    rewrite fmap_cons, count_if_cons, IH. simpl.
    destruct (p r) eqn:Hp.
    + rewrite map_filter_insert_True by done.
      rewrite map_size_insert_None; [lia|].
      apply map_lookup_filter_None. by left.
    + rewrite map_filter_insert_False by (simpl; congruence).
      rewrite delete_id by done. lia.
Qed.

Lemma length_values (recs : gmap string record) : length (values recs) = size recs.
Proof. unfold values. by rewrite length_fmap, length_map_to_list. Qed.

Lemma elem_of_values r (recs : gmap string record) :
  r ∈ values recs <-> exists n, recs !! n = Some r.
Proof.
  unfold values. rewrite list_elem_of_fmap. split.
  - intros [[n r'] [-> H]]. exists n. by apply elem_of_map_to_list.
  - intros [n H]. exists (n, r). split; [done|]. by apply elem_of_map_to_list.
Qed.
End Counting.

(** ** The pass-flag invariant *)

Section PassFlag.

Implicit Types (st : store) (dk : disk) (inp : list string) (r : record).

Lemma store_ok_empty m : store_ok (empty_store m).
Proof. intros n r H. simpl in H. by rewrite lookup_empty in H. Qed.

Lemma store_ok_insert m recs n r :
  store_ok (Store m recs) -> passed r = pass_rule m (sat_score r) ->
  store_ok (Store m (<[n := r]> recs)).
Proof.
  intros Hok Hr k r' H. simpl in *.
  destruct (decide (n = k)) as [->|Hne].
  - rewrite lookup_insert_eq in H. by inversion H; subst.
  - rewrite lookup_insert_ne in H by done. by apply (Hok k).
Qed.

Lemma store_ok_delete m recs n :
  store_ok (Store m recs) -> store_ok (Store m (delete n recs)).
Proof.
  intros Hok k r' H. simpl in *.
  apply lookup_delete_Some in H as [_ H]. by apply (Hok k).
Qed.

(** The loop of [set_max_score] establishes the rule, whatever the flags
    were. *)
Lemma sat_recompute_ok st : store_ok (Sat.recompute st).
Proof.
  intros k r H. unfold Sat.recompute in H. simpl in *.
  rewrite lookup_fmap in H.
  destruct (records st !! k) as [r0|]; simplify_eq/=. done.
Qed.

Lemma manager_compute_pass_float s m :
  SatManager.compute_pass (Py.VFloat s) (Py.VFloat m) = Py.Ok (pass_rule m s).
Proof. reflexivity. Qed.

Lemma manager_recompute_ok st : store_ok (SatManager.recompute st).
Proof.
  intros k r H. unfold SatManager.recompute in H. simpl in *.
  rewrite lookup_fmap in H.
  destruct (records st !! k) as [r0|]; simplify_eq/=. done.
Qed.

(** On a store that satisfies the rule, the loop changes nothing. *)
Lemma sat_recompute_id st : store_ok st -> Sat.recompute st = st.
Proof.
  intros Hok. destruct st as [m recs]. unfold Sat.recompute. simpl. f_equal.
  apply map_eq. intros k. rewrite lookup_fmap.
  destruct (recs !! k) as [r|] eqn:Hk; [|done]. simpl. f_equal.
  specialize (Hok k r Hk). simpl in Hok.
  destruct r. unfold set_passed, set_score, Sat.compute_pass. simpl in *.
  by rewrite Hok.
Qed.

Lemma written_ok_refl dk : written_ok dk dk.
Proof. by left. Qed.

Lemma written_ok_dump dk st b : store_ok st -> written_ok dk (Disk (Document (dump st)) b).
Proof. intros H. right. by exists st. Qed.

Create HintDb pass.
Local Hint Resolve written_ok_refl written_ok_dump store_ok_insert store_ok_delete
  sat_recompute_ok manager_recompute_ok : pass.

(** Unfolds an operation down to its cases; each one leaves the store and
    the disk explicit. *)
Local Ltac cases_of_op :=
  unfold Sat.save_data, SatManager.save_then, SatManager.save_data, done, eof;
  repeat (case_match; simplify_eq/=).

Lemma sat_insert_ok st dk inp :
  store_ok st ->
  store_ok (data (Sat.insert_data st dk inp)) /\ written_ok dk (dsk (Sat.insert_data st dk inp)).
Proof.
  intros Hok. destruct st as [m recs]. unfold Sat.insert_data.
  cases_of_op; (split; [|auto with pass]); auto with pass.
  all: try (apply written_ok_dump).
  all: try (apply store_ok_delete).
  all: by apply store_ok_insert.
Qed.

Lemma sat_update_ok st dk inp :
  store_ok st ->
  store_ok (data (Sat.update_score st dk inp)) /\ written_ok dk (dsk (Sat.update_score st dk inp)).
Proof.
  intros Hok. destruct st as [m recs]. unfold Sat.update_score.
  cases_of_op; (split; [|auto with pass]); auto with pass.
  rewrite insert_insert_eq. apply store_ok_insert; [done|].
  destruct r; simpl. by apply (Hok _ _ H0).
Qed.

Lemma sat_delete_ok st dk inp :
  store_ok st ->
  store_ok (data (Sat.delete_one_record st dk inp))
  /\ written_ok dk (dsk (Sat.delete_one_record st dk inp)).
Proof.
  intros Hok. destruct st as [m recs]. unfold Sat.delete_one_record.
  cases_of_op; (split; [|auto with pass]); auto with pass.
  apply store_ok_insert; [by apply store_ok_delete|]. by apply (Hok _ _ H0).
Qed.

Lemma sat_set_max_ok st dk inp :
  store_ok st ->
  store_ok (data (Sat.set_max_score st dk inp))
  /\ written_ok dk (dsk (Sat.set_max_score st dk inp)).
Proof.
  intros Hok. unfold Sat.set_max_score.
  cases_of_op; (split; [|auto with pass]); auto with pass.
Qed.

Lemma manager_insert_ok st dk inp :
  store_ok st ->
  store_ok (data (SatManager.insert_data st dk inp))
  /\ written_ok dk (dsk (SatManager.insert_data st dk inp)).
Proof.
  intros Hok. destruct st as [m recs]. unfold SatManager.insert_data.
  cases_of_op; (split; [|auto with pass]); auto with pass.
  all: try apply written_ok_dump.
  all: by apply store_ok_insert.
Qed.

Lemma manager_update_ok st dk inp :
  store_ok st ->
  store_ok (data (SatManager.update_score st dk inp))
  /\ written_ok dk (dsk (SatManager.update_score st dk inp)).
Proof.
  intros Hok. destruct st as [m recs]. unfold SatManager.update_score.
  cases_of_op; (split; [|auto with pass]); auto with pass.
  all: try apply written_ok_dump.
  all: by apply store_ok_insert.
Qed.

Lemma manager_delete_ok st dk inp :
  store_ok st ->
  store_ok (data (SatManager.delete_one_record st dk inp))
  /\ written_ok dk (dsk (SatManager.delete_one_record st dk inp)).
Proof.
  intros Hok. destruct st as [m recs]. unfold SatManager.delete_one_record.
  cases_of_op; (split; [|auto with pass]); auto with pass.
Qed.

Lemma manager_set_max_ok st dk inp :
  store_ok st ->
  store_ok (data (SatManager.set_max_score st dk inp))
  /\ written_ok dk (dsk (SatManager.set_max_score st dk inp)).
Proof.
  intros Hok. unfold SatManager.set_max_score.
  cases_of_op; (split; [|auto with pass]); auto with pass.
Qed.

End PassFlag.

(** ** The rank query *)

Section Rank.

Implicit Types (st : store) (dk : disk) (inp : list string) (r : record).

Lemma present_not_empty (recs : gmap string record) n r :
  recs !! n = Some r -> is_empty recs = false.
Proof.
  intros H. unfold is_empty. apply Nat.eqb_neq.
  apply (map_size_ne_0_lookup_2 recs n). by exists r.
Qed.

Lemma sat_higher_count st s : Sat.higher_count st s = greater_count st s.
Proof.
  unfold Sat.higher_count, Sat.all_scores, greater_count.
  by rewrite count_if_fmap, count_if_values.
Qed.

Lemma sat_same_score_count st s : Sat.same_score_count st s = equal_count st s.
Proof.
  unfold Sat.same_score_count, Sat.all_scores, equal_count.
  by rewrite count_if_fmap, count_if_values.
Qed.

Lemma length_all_scores st : Z.of_nat (length (Sat.all_scores st)) = total st.
Proof. unfold Sat.all_scores, total. by rewrite length_fmap, length_values. Qed.

Lemma total_positive st n r : records st !! n = Some r -> 0 < total st.
Proof.
  intros H. unfold total.
  pose proof (map_size_ne_0_lookup_2 (records st) n (ltac:(by exists r))). lia.
Qed.

Lemma int_truediv_positive a b : 0 < b -> exists q, Py.int_truediv a b = Py.Ok q.
Proof. intros Hb. destruct b; try lia. destruct a; simpl; eauto. Qed.

Lemma sat_get_rank_found st dk line inp r :
  records st !! Py.strip line = Some r ->
  exists q,
    Py.int_truediv (total st - (greater_count st (sat_score r) + 1) + 1) (total st) = Py.Ok q
    /\ Sat.get_rank st dk (line :: inp)
       = done st dk inp
           (Sat.Ranking (Py.strip line) (sat_score r) (greater_count st (sat_score r) + 1)
              (total st) (q * 100)%float (passed r)
            :: (if equal_count st (sat_score r) >? 1
                then [Sat.SameScore (equal_count st (sat_score r))] else [])).
Proof.
  intros H.
  destruct (int_truediv_positive
              (total st - (greater_count st (sat_score r) + 1) + 1) (total st)) as [q Hq];
    [by eapply total_positive|].
  exists q. split; [done|].
  unfold Sat.get_rank. rewrite (present_not_empty _ _ _ H), H.
  rewrite length_all_scores, sat_higher_count, sat_same_score_count, Hq. done.
Qed.

Lemma manager_get_rank_found st dk line inp r :
  records st !! Py.strip line = Some r ->
  SatManager.get_rank st dk (line :: inp)
  = done st dk inp
      (SatManager.Ranking (Py.strip line) (sat_score r) (1 + greater_count st (sat_score r))
         (total st)
       :: (if equal_count st (sat_score r) >? 1
           then [SatManager.SameScore (equal_count st (sat_score r))] else [])).
Proof.
  intros H. unfold SatManager.get_rank. rewrite (present_not_empty _ _ _ H), H.
  unfold SatManager.all_scores.
  by rewrite !count_if_fmap, !count_if_values, length_fmap, length_values.
Qed.

(** Equal scores have the same number of greater scores. *)
Lemma greater_count_eqb st (x y : float) :
  (x =? y)%float = true -> greater_count st x = greater_count st y.
Proof.
  intros Hxy. rewrite <- !sat_higher_count. unfold Sat.higher_count.
  apply count_if_ext. intros s _. by apply float_ltb_eqb_l.
Qed.

(** No record above: no greater score. *)
Lemma greater_count_top st (x : float) :
  (forall n r, records st !! n = Some r -> (x <? sat_score r)%float = false) ->
  greater_count st x = 0.
Proof.
  intros Htop. rewrite <- sat_higher_count. unfold Sat.higher_count, Sat.all_scores.
  rewrite count_if_fmap. apply count_if_none.
  intros r [n Hn]%elem_of_values. by apply (Htop n).
Qed.

End Rank.

(** ** Failed writes in [sat.py] *)

Section Rollback.

Implicit Types (st : store) (dk : disk) (inp : list string) (r : record).

Lemma has_key_false (recs : gmap string record) n : has_key n recs = false -> recs !! n = None.
Proof.
  unfold has_key. intros H%bool_decide_eq_false. by apply eq_None_not_Some.
Qed.

Lemma has_key_true (recs : gmap string record) n :
  has_key n recs = true -> exists r, recs !! n = Some r.
Proof. unfold has_key. by intros H%bool_decide_eq_true. Qed.

(** The name that the prompt of [insert_data] settles on is a new key. *)
Lemma ask_name_new recs inp n inp' o :
  Sat.ask_name recs inp = Got (Some n) inp' o -> recs !! n = None.
Proof.
  revert o. induction inp as [|line inp IH]; intros o; simpl; [done|].
  destruct (Sat.validate_name (Py.strip line)) as [[] o1].
  - destruct (has_key _ recs) eqn:Hk; intros [= <- <- <-]. by apply has_key_false.
  - destruct (Sat.ask_name recs inp) as [a rest o2|o2]; simpl; [|done].
    intros [= -> -> <-]. by eapply IH.
Qed.

Lemma set_score_back r s p : set_score (sat_score r) (passed r) (set_score s p r) = r.
Proof. by destruct r. Qed.

Lemma sat_recompute_back st m :
  store_ok st ->
  Sat.recompute (Store (max_score st) (records (Sat.recompute (Store m (records st))))) = st.
Proof.
  intros Hok. destruct st as [m0 recs]. unfold Sat.recompute. simpl. f_equal.
  apply map_eq. intros k. rewrite !lookup_fmap.
  destruct (recs !! k) as [r|] eqn:Hk; [|done]. simpl. f_equal.
  specialize (Hok k r Hk). simpl in Hok.
  destruct r. unfold set_passed, set_score, Sat.compute_pass. simpl in *.
  by rewrite Hok.
Qed.

(** When the file cannot be written, every operation of [sat.py] ends with
    the store and the disk it started from. *)
Lemma sat_rollback c st dk inp :
  writable dk = false -> store_ok st ->
  data (Sat.exec c st dk inp) = st /\ dsk (Sat.exec c st dk inp) = dk.
Proof.
  intros Hw Hok. destruct c; simpl.
  - unfold Sat.insert_data, Sat.save_data. rewrite Hw.
    destruct (Sat.ask_name (records st) inp) as [[n|] inp1 o1|o1] eqn:Hn; [|done..].
    destruct inp1 as [|l1 [|l2 [|l3 inp1]]]; [done..|].
    destruct (Sat.ask_pincode inp1) as [p inp2 o2|o2]; [|done].
    destruct (Sat.ask_score st inp2) as [s inp3 o3|o3]; [|done].
    simpl. split; [|done]. destruct st as [m recs]. simpl in *. f_equal.
    rewrite delete_insert_eq. apply delete_id. by eapply ask_name_new.
  - unfold Sat.update_score, Sat.save_data. rewrite Hw.
    destruct (is_empty (records st)); [done|].
    destruct inp as [|line inp]; [done|].
    destruct (records st !! Py.strip line) as [r|] eqn:Hr; [|done].
    destruct (Sat.ask_score st inp) as [s inp3 o3|o3]; [|done].
    simpl. split; [|done]. destruct st as [m recs]. simpl in *. f_equal.
    rewrite insert_insert_eq, set_score_back. by apply insert_id.
  - unfold Sat.delete_one_record, Sat.save_data. rewrite Hw.
    destruct (is_empty (records st)); [done|].
    destruct inp as [|line inp]; [done|].
    destruct (records st !! Py.strip line) as [r|] eqn:Hr; [|done].
    destruct inp as [|line2 inp]; [done|].
    destruct (String.eqb _ _); [|done].
    simpl. split; [|done]. destruct st as [m recs]. simpl in *. f_equal.
    by apply insert_delete_id.
  - unfold Sat.set_max_score, Sat.save_data. rewrite Hw.
    destruct (Sat.ask_max inp) as [[m|] inp1 o1|o1]; [|done..].
    simpl. split; [|done]. by apply (sat_recompute_back st m).
Qed.

Lemma printed_emit {M A} (o : list M) (r : read M A) : printed (emit o r) = o ++ printed r.
Proof. by destruct r. Qed.

(** The prompt loops do not print the notice of [save_data]. *)
Lemma ask_name_quiet recs inp : Sat.Saved ∉ printed (Sat.ask_name recs inp).
Proof.
  induction inp as [|line inp IH]; simpl; [set_solver|].
  unfold Sat.validate_name.
  repeat (case_match; simplify_eq/=); rewrite ?printed_emit; set_solver.
Qed.

Lemma ask_pincode_quiet inp : Sat.Saved ∉ printed (Sat.ask_pincode inp).
Proof.
  induction inp as [|line inp IH]; simpl; [set_solver|].
  unfold Sat.check_pincode.
  repeat (case_match; simplify_eq/=); rewrite ?printed_emit; set_solver.
Qed.

Lemma ask_score_quiet st inp : Sat.Saved ∉ printed (Sat.ask_score st inp).
Proof.
  induction inp as [|line inp IH]; simpl; [set_solver|].
  unfold Sat.validate_score.
  repeat (case_match; simplify_eq/=); rewrite ?printed_emit; set_solver.
Qed.

Lemma ask_max_quiet inp : Sat.Saved ∉ printed (Sat.ask_max inp).
Proof.
  induction inp as [|line inp IH]; simpl; [set_solver|].
  repeat (case_match; simplify_eq/=); rewrite ?printed_emit; set_solver.
Qed.

(** Whenever an operation of [sat.py] would have written the file, it
    reports the failed write: the notice of [save_data] and its own. *)
Lemma sat_failure_reported c st f inp :
  Sat.Saved ∈ out (Sat.exec c st (Disk f true) inp) ->
  Sat.SaveError ∈ out (Sat.exec c st (Disk f false) inp)
  /\ Sat.failure_notice c ∈ out (Sat.exec c st (Disk f false) inp).
Proof.
  destruct c; simpl.
  - unfold Sat.insert_data, Sat.save_data. simpl.
    pose proof (ask_name_quiet (records st) inp) as Q1.
    destruct (Sat.ask_name (records st) inp) as [[n|] inp1 o1|o1]; simpl in *; [|done..].
    destruct inp1 as [|l1 [|l2 [|l3 inp1]]]; simpl; [done..|].
    pose proof (ask_pincode_quiet inp1) as Q2.
    destruct (Sat.ask_pincode inp1) as [p inp2 o2|o2]; simpl in *; [|set_solver].
    pose proof (ask_score_quiet st inp2) as Q3.
    destruct (Sat.ask_score st inp2) as [s inp3 o3|o3]; simpl in *; set_solver.
  - unfold Sat.update_score, Sat.save_data. simpl.
    destruct (is_empty (records st)); simpl; [set_solver|].
    destruct inp as [|line inp]; simpl; [set_solver|].
    destruct (records st !! Py.strip line) as [r|]; simpl; [|set_solver].
    pose proof (ask_score_quiet st inp) as Q3.
    destruct (Sat.ask_score st inp) as [s inp3 o3|o3]; simpl in *; set_solver.
  - unfold Sat.delete_one_record, Sat.save_data. simpl.
    destruct (is_empty (records st)); simpl; [set_solver|].
    destruct inp as [|line inp]; simpl; [set_solver|].
    destruct (records st !! Py.strip line) as [r|]; simpl; [|set_solver].
    destruct inp as [|line2 inp]; simpl; [set_solver|].
    destruct (String.eqb _ _); simpl; set_solver.
  - unfold Sat.set_max_score, Sat.save_data. simpl.
    pose proof (ask_max_quiet inp) as Q1.
    destruct (Sat.ask_max inp) as [[m|] inp1 o1|o1]; simpl in *; set_solver.
Qed.

End Rollback.

(** ** Deleting *)

Section Delete.

Implicit Types (st : store) (dk : disk) (inp : list string) (r : record).

(** C8: deleting a name that is not a key leaves the store as it was (and
    writes nothing), in [sat.py] and in [sat_manager.py]. *)
Theorem delete_missing_unchanged st dk line inp :
  records st !! Py.strip line = None ->
  (data (Sat.delete_one_record st dk (line :: inp)) = st
   /\ dsk (Sat.delete_one_record st dk (line :: inp)) = dk)
  /\ (data (SatManager.delete_one_record st dk (line :: inp)) = st
      /\ dsk (SatManager.delete_one_record st dk (line :: inp)) = dk).
Proof.
  intros Hn. unfold Sat.delete_one_record, SatManager.delete_one_record.
  destruct (is_empty (records st)); [done|]. rewrite Hn.
  destruct (has_key (Py.strip line) (records st)) eqn:Hk; [|done].
  apply has_key_true in Hk as [r Hr]. congruence.
Qed.

Lemma delete_missing_unchanged_witness :
  records one_store !! Py.strip "zed" = None
  /\ data (Sat.delete_one_record one_store good_disk ["zed"; "DELETE zed"]%string) = one_store
  /\ data (SatManager.delete_one_record one_store good_disk ["zed"; "yes"]%string) = one_store.
Proof.
  assert (H : records one_store !! Py.strip "zed" = None) by reflexivity.
  split; [exact H|]. split.
  - exact (proj1 (proj1 (delete_missing_unchanged one_store good_disk "zed" ["DELETE zed"%string] H))).
  - exact (proj1 (proj2 (delete_missing_unchanged one_store good_disk "zed" ["yes"%string] H))).
Defined.

(** C9, as the code has it: the record stays, and nothing is written,
    unless the trimmed confirmation is [DELETE <name>] ([sat.py]), or is
    [yes] in any letter case ([sat_manager.py]). *)
Theorem delete_needs_confirmation st dk line confirm inp r :
  records st !! Py.strip line = Some r ->
  (Py.strip confirm <> ("DELETE " ++ Py.strip line)%string ->
   data (Sat.delete_one_record st dk (line :: confirm :: inp)) = st
   /\ dsk (Sat.delete_one_record st dk (line :: confirm :: inp)) = dk)
  /\ (Py.lower (Py.strip confirm) <> "yes"%string ->
      data (SatManager.delete_one_record st dk (line :: confirm :: inp)) = st
      /\ dsk (SatManager.delete_one_record st dk (line :: confirm :: inp)) = dk).
Proof.
  intros Hr. unfold Sat.delete_one_record, SatManager.delete_one_record.
  rewrite (present_not_empty _ _ _ Hr), Hr.
  split; intros Hc.
  - apply String.eqb_neq in Hc. by rewrite Hc.
  - apply String.eqb_neq in Hc. rewrite Hc. by destruct (has_key _ _).
Qed.

Lemma delete_needs_confirmation_witness :
  records one_store !! Py.strip "bob" = Some bob
  /\ data (Sat.delete_one_record one_store good_disk ["bob"; "delete bob"]%string) = one_store
  /\ data (SatManager.delete_one_record one_store good_disk ["bob"; "no"]%string) = one_store.
Proof.
  assert (H : records one_store !! Py.strip "bob" = Some bob) by reflexivity.
  pose proof (delete_needs_confirmation one_store good_disk "bob" "delete bob" [] bob H) as H1.
  pose proof (delete_needs_confirmation one_store good_disk "bob" "no" [] bob H) as H2.
  split; [exact H|]. split.
  - apply (proj1 H1). vm_compute. discriminate.
  - apply (proj2 H2). vm_compute. discriminate.
Defined.

(** C9 fails as stated: [sat_manager.py] asks for [yes], and removes the
    record on [YES]. *)
Lemma delete_on_inexact_confirmation :
  "YES"%string <> "yes"%string
  /\ records one_store !! "bob"%string = Some bob
  /\ records (data (SatManager.delete_one_record one_store good_disk ["bob"; "YES"]%string))
       !! "bob"%string = None.
Proof. split; [discriminate|]. split; reflexivity. Qed.

End Delete.

(** ** [compute_pass] of [sat_manager.py] *)

Section ComputePass.

Import Py.

(** A score that [float] rejects gives [False], whatever the maximum is. *)
Lemma compute_pass_unparseable score max_score e :
  to_float score = Raise e -> SatManager.compute_pass score max_score = Ok false.
Proof. intros H. unfold SatManager.compute_pass. by rewrite H. Qed.

(** C10, as the code has it: when [float] accepts the maximum,
    [compute_pass] returns a boolean for every score; and for a score that
    [float] rejects it returns [False] whatever the maximum is, also one
    that [float] rejects. *)
Theorem compute_pass_total score max_score :
  (forall m, to_float max_score = Ok m ->
     exists b, SatManager.compute_pass score max_score = Ok b)
  /\ (forall e, to_float score = Raise e ->
      SatManager.compute_pass score max_score = Ok false).
Proof.
  split.
  - intros m Hm. unfold SatManager.compute_pass. rewrite Hm.
    destruct (to_float score); eauto.
  - intros e. apply compute_pass_unparseable.
Qed.

Lemma compute_pass_total_witness :
  to_float (VInt 100) = Ok 100%float
  /\ (exists b, SatManager.compute_pass (VStr "abc") (VInt 100) = Ok b)
  /\ to_float VNone = Raise TypeError
  /\ SatManager.compute_pass (VStr "abc") VNone = Ok false.
Proof.
  assert (H : to_float (VInt 100) = Ok 100%float) by reflexivity.
  split; [exact H|]. split.
  - exact (proj1 (compute_pass_total (VStr "abc") (VInt 100)) 100%float H).
  - split; [reflexivity|].
    apply (proj2 (compute_pass_total (VStr "abc") VNone) ValueError). reflexivity.
Defined.

(** C10 fails as stated: the conversion of the maximum is outside of the
    [try], and raises for a maximum that is no number. *)
Lemma compute_pass_raises :
  SatManager.compute_pass (VFloat 1) VNone = Raise TypeError.
Proof. reflexivity. Qed.

End ComputePass.

(** ** Loading *)

Section Load.

Import Py.

(** C5, as the code has it: [load_data] of [sat.py] returns the fresh
    dictionary, with no record and the maximum 1600, when the file is
    absent, cannot be read, is not JSON or holds no object; [load_data] of
    [sat_manager.py] returns its fresh dictionary, with the maximum 100,
    when the file is absent, cannot be read or is not JSON. *)
Theorem load_fallback f :
  not_an_object f ->
  fst (Sat.load_data f) = [("max_score", VInt 1600); ("records", VDict [])]%string
  /\ (no_document f ->
      SatManager.load_data f
      = Ok (VDict [("max_score", VInt 100); ("records", VDict [])]%string)).
Proof.
  intros H. split.
  - destruct f as [| | |[]]; simpl in *; done.
  - intros H'. destruct f; simpl in *; done.
Qed.

Lemma load_fallback_witness :
  not_an_object Malformed
  /\ fst (Sat.load_data Malformed) = [("max_score", VInt 1600); ("records", VDict [])]%string
  /\ SatManager.load_data Malformed
     = Ok (VDict [("max_score", VInt 100); ("records", VDict [])]%string).
Proof.
  assert (H : not_an_object Malformed) by exact I.
  pose proof (load_fallback Malformed H) as [H1 H2].
  split; [exact H|]. split; [exact H1|]. apply H2. exact I.
Defined.

(** C5 fails as stated: without a file, [load_data] of [sat_manager.py]
    starts from the maximum 100, not 1600. *)
Lemma load_default_differs :
  SatManager.load_data Absent
  = Ok (VDict [("max_score", VInt 100); ("records", VDict [])]%string)
  /\ SatManager.load_data Absent
     <> Ok (VDict [("max_score", VInt 1600); ("records", VDict [])]%string).
Proof. split; [reflexivity|discriminate]. Qed.

(** A JSON value that is no object leaves [load_data] of [sat_manager.py]
    with a [TypeError]: the keys are ensured outside of the [try]. *)
Lemma manager_load_raises :
  SatManager.load_data (Document (VList [])) = Raise TypeError
  /\ SatManager.load_data (Document (VInt 5)) = Raise TypeError.
Proof. split; reflexivity. Qed.

(** A JSON object is kept, with the missing keys added. *)
Lemma sat_load_object d :
  fst (Sat.load_data (Document (VDict d)))
  = Sat.setdefault "records" (VDict []) (Sat.setdefault "max_score" (VInt 1600) d).
Proof. reflexivity. Qed.

End Load.

(** ** Validation *)

Section Validation.

Import Py.

Implicit Types (st : store) (dk : disk) (inp : list string) (r : record).

Lemma SFcompare_antisym a b :
  SFcompare b a = option_map CompOpp (SFcompare a b).
Proof.
  destruct a as [sa|sa| |sa ma ea], b as [sb|sb| |sb mb eb]; simpl;
    try done; try (by destruct sa); try (by destruct sb); try (by destruct sa, sb).
  destruct sa, sb; simpl; try done.
  - rewrite (Z.compare_antisym ea eb). destruct (ea ?= eb); simpl; try done.
    by rewrite (Pos.compare_cont_antisym ma mb Eq).
  - rewrite (Z.compare_antisym ea eb). destruct (ea ?= eb); simpl; try done.
    rewrite (Pos.compare_cont_antisym ma mb Eq). simpl.
    by destruct (Pos.compare_cont Eq ma mb).
Qed.

Lemma SFcompare_nan a b : SFcompare a b = None -> a = S754_nan \/ b = S754_nan.
Proof.
  destruct a as [sa|sa| |sa ma ea], b as [sb|sb| |sb mb eb]; simpl; auto; discriminate.
Qed.

Lemma is_nan_spec (x : float) : is_nan x = false -> Prim2SF x <> S754_nan.
Proof.
  unfold is_nan. rewrite FloatAxioms.eqb_spec. intros H Hx. rewrite Hx in H. done.
Qed.

(** Between two numbers that are not NaN, [not (x < y)] is [y <= x]. *)
Lemma float_not_ltb (x y : float) :
  is_nan x = false -> is_nan y = false -> (x <? y)%float = false -> (y <=? x)%float = true.
Proof.
  intros Hx%is_nan_spec Hy%is_nan_spec. rewrite ltb_spec, leb_spec.
  unfold SFltb, SFleb. rewrite (SFcompare_antisym (Prim2SF x) (Prim2SF y)).
  destruct (SFcompare (Prim2SF x) (Prim2SF y)) as [[]|] eqn:Hc; simpl; try done.
  by destruct (SFcompare_nan _ _ Hc).
Qed.

(** [validate_score] takes a text exactly when [float] parses it to a value
    that is neither below 0 nor above the maximum, in the sense of [<] and
    [>] of the code. *)
Lemma validate_score_accepts st s x :
  fst (Sat.validate_score st s) = Some x
  <-> float_of_string (strip s) = Some x
      /\ (x <? 0)%float = false /\ (max_score st <? x)%float = false.
Proof.
  unfold Sat.validate_score.
  destruct (float_of_string (strip s)) as [y|]; simpl;
    [|split; [done|by intros [? _]]].
  destruct (y <? 0)%float eqn:H0; simpl.
  { split; [done|]. intros ([= ->] & H & _). congruence. }
  destruct (max_score st <? y)%float eqn:H1; simpl.
  { split; [done|]. intros ([= ->] & _ & H). congruence. }
  split.
  - intros [= ->]. done.
  - by intros (-> & _).
Qed.

Lemma ask_score_accepts st inp x inp' o :
  Sat.ask_score st inp = Got x inp' o ->
  (x <? 0)%float = false /\ (max_score st <? x)%float = false.
Proof.
  revert o. induction inp as [|line inp IH]; intros o; simpl; [done|].
  destruct (Sat.validate_score st (strip line)) as [[y|] o1] eqn:Hv.
  - intros [= -> -> ->].
    apply (validate_score_accepts st (strip line) x). by rewrite Hv.
  - destruct (Sat.ask_score st inp) as [y inp1 o2|o2]; simpl; [|done].
    intros [= -> -> <-]. by eapply IH.
Qed.

(** What [sat.py] stores of a score: a record of the store after
    [insert_data] or [update_score] was there before, or has a score that is
    neither below 0 nor above the maximum. *)
Lemma sat_stored_score st dk inp n r :
  (records (data (Sat.insert_data st dk inp)) !! n = Some r
   \/ records (data (Sat.update_score st dk inp)) !! n = Some r) ->
  records st !! n = Some r
  \/ (sat_score r <? 0)%float = false /\ (max_score st <? sat_score r)%float = false.
Proof.
  intros [H|H].
  - destruct (decide (writable dk = false)) as [Hw|Hw].
    + destruct st as [m recs].
      unfold Sat.insert_data, Sat.save_data in H. rewrite Hw in H. simpl in H.
      destruct (Sat.ask_name recs inp) as [[k|] inp1 o1|o1] eqn:Hn; simpl in H; auto.
      destruct inp1 as [|l1 [|l2 [|l3 inp1]]]; simpl in H; auto.
      destruct (Sat.ask_pincode inp1) as [p inp2 o2|o2]; simpl in H; auto.
      destruct (Sat.ask_score _ inp2) as [s inp3 o3|o3]; simpl in H; auto.
      simpl in H. left. rewrite delete_insert_eq in H.
      by apply lookup_delete_Some in H as [_ H].
    + apply not_false_is_true in Hw. destruct st as [m recs].
      unfold Sat.insert_data, Sat.save_data in H. rewrite Hw in H. simpl in H.
      destruct (Sat.ask_name recs inp) as [[k|] inp1 o1|o1] eqn:Hn; simpl in H; auto.
      destruct inp1 as [|l1 [|l2 [|l3 inp1]]]; simpl in H; auto.
      destruct (Sat.ask_pincode inp1) as [p inp2 o2|o2]; simpl in H; auto.
      destruct (Sat.ask_score _ inp2) as [s inp3 o3|o3] eqn:Hs; simpl in H; auto.
      simpl in H. destruct (decide (k = n)) as [->|Hne].
      * rewrite lookup_insert_eq in H. injection H as <-. right.
        apply (ask_score_accepts _ _ _ _ _ Hs).
      * rewrite lookup_insert_ne in H by done. by left.
  - destruct st as [m recs]. unfold Sat.update_score, Sat.save_data in H. simpl in H.
    destruct (is_empty recs); simpl in H; auto.
    destruct inp as [|line inp]; simpl in H; auto.
    destruct (recs !! strip line) as [r0|] eqn:Hr; simpl in H; auto.
    destruct (Sat.ask_score _ inp) as [s inp3 o3|o3] eqn:Hs; simpl in H; auto.
    destruct (writable dk); simpl in H.
    + destruct (decide (strip line = n)) as [<-|Hne].
      * rewrite lookup_insert_eq in H. injection H as <-. right.
        destruct r0. apply (ask_score_accepts _ _ _ _ _ Hs).
      * rewrite lookup_insert_ne in H by done. by left.
    + left. rewrite insert_insert_eq, set_score_back, insert_id in H; done.
Qed.

(** When neither the score nor the maximum is NaN, this is
    [0 <= score <= max_score]. *)
Lemma score_in_range (m x : float) :
  is_nan x = false -> is_nan m = false ->
  (x <? 0)%float = false -> (m <? x)%float = false ->
  (0 <=? x)%float = true /\ (x <=? m)%float = true.
Proof.
  intros Hx Hm H0 H1. split.
  - by apply float_not_ltb.
  - by apply float_not_ltb.
Qed.

End Validation.

(** ** Pincodes *)

Section Pincode.

Import Py.

Implicit Types (st : store) (dk : disk) (inp : list string) (r : record).

Lemma isdigit_spec p : isdigit p = true <-> p <> ""%string /\ all_chars isdigit_char p = true.
Proof. destruct p; simpl; [split; [done|by intros [? _]]|]. split; [done|by intros [_ ?]]. Qed.

(** The test of [insert_data] in [sat.py] takes a pincode exactly when it is
    not empty, made of digits, and three characters long at least. *)
Lemma check_pincode_accepts p : Sat.check_pincode p = None <-> pincode_ok p.
Proof.
  unfold Sat.check_pincode, pincode_ok.
  destruct (String.eqb_spec p "") as [->|Hne]; [split; [done|by intros [? _]]|].
  destruct (isdigit p) eqn:Hd; simpl.
  - apply isdigit_spec in Hd as [_ Hd].
    destruct (Z.ltb_spec (len p) 3); split; try done.
    intros (_ & _ & ?). lia.
  - split; [done|]. intros (_ & Ha & _).
    assert (isdigit p = true) by by apply isdigit_spec. congruence.
Qed.

Lemma ask_pincode_accepts inp p inp' o :
  Sat.ask_pincode inp = Got p inp' o -> pincode_ok p.
Proof.
  revert o. induction inp as [|line inp IH]; intros o; simpl; [done|].
  destruct (Sat.check_pincode (strip line)) as [m|] eqn:Hc.
  - destruct (Sat.ask_pincode inp) as [y inp1 o2|o2]; simpl; [|done].
    intros [= -> -> <-]. by eapply IH.
  - intros [= <- <- <-]. by apply check_pincode_accepts.
Qed.

(** What [insert_data] of [sat.py] stores of a pincode: a record of the
    store after it was there before, or has a pincode that passed the
    test. *)
Lemma sat_stored_pincode st dk inp n r :
  records (data (Sat.insert_data st dk inp)) !! n = Some r ->
  records st !! n = Some r \/ pincode_ok (pincode r).
Proof.
  intros H. destruct st as [m recs].
  unfold Sat.insert_data, Sat.save_data in H. simpl in H.
  destruct (Sat.ask_name recs inp) as [[k|] inp1 o1|o1] eqn:Hn; simpl in H; auto.
  destruct inp1 as [|l1 [|l2 [|l3 inp1]]]; simpl in H; auto.
  destruct (Sat.ask_pincode inp1) as [p inp2 o2|o2] eqn:Hp; simpl in H; auto.
  destruct (Sat.ask_score _ inp2) as [s inp3 o3|o3] eqn:Hs; simpl in H; auto.
  destruct (writable dk); simpl in H.
  - destruct (decide (k = n)) as [->|Hne].
    + rewrite lookup_insert_eq in H. injection H as <-. right.
      apply (ask_pincode_accepts _ _ _ _ Hp).
    + rewrite lookup_insert_ne in H by done. by left.
  - left. rewrite delete_insert_eq in H. by apply lookup_delete_Some in H as [_ H].
Qed.

End Pincode.

(** ** Where the scripts part from the specification *)

Section Divergence.

Import Py.

(** C7: [insert_data] of [sat_manager.py] stores the pincode as typed; with
    the pincode [ab] it stores a record whose pincode has no digit. *)
Theorem manager_insert_any_pincode :
  exists r,
    records (data (SatManager.insert_data (empty_store 100) good_disk
                     ["bob"; "1 Main St"; "Pune"; "India"; "ab"; "50"]%string))
      !! "bob"%string = Some r
    /\ pincode r = "ab"%string
    /\ ~ pincode_ok (pincode r).
Proof.
  eexists. split; [reflexivity|]. split; [reflexivity|].
  intros (_ & H & _). discriminate H.
Qed.

(** C3: [validate_score] of [sat.py] takes [nan], which is neither below 0
    nor above the maximum, and [insert_data] stores it: a score for which
    [0 <= score] does not hold. *)
Theorem sat_insert_nan_score :
  fst (Sat.validate_score (empty_store 1600) "nan") = Some nan
  /\ (exists r,
        records (data (Sat.insert_data (empty_store 1600) good_disk
                         ["eve"; "1 Main St"; "Pune"; "India"; "411001"; "nan"]%string))
          !! "eve"%string = Some r
        /\ sat_score r = nan
        /\ (0 <=? sat_score r)%float = false
        /\ (sat_score r <=? 1600)%float = false).
Proof.
  split; [reflexivity|]. eexists. split; [reflexivity|]. repeat split.
Qed.

(** [insert_data] of [sat_manager.py] checks no range: it stores [-5], and
    a score above the maximum. *)
Lemma manager_insert_any_score :
  (sat_score <$> records (data (SatManager.insert_data (empty_store 100) good_disk
                     ["bob"; "1 Main St"; "Pune"; "India"; "411001"; "-5"]%string))
      !! "bob"%string) = Some (-5)%float
  /\ (sat_score <$> records (data (SatManager.insert_data (empty_store 100) good_disk
                     ["bob"; "1 Main St"; "Pune"; "India"; "411001"; "250"]%string))
      !! "bob"%string) = Some 250%float.
Proof. split; reflexivity. Qed.

(** C2: when the file cannot be written, [insert_data] of
    [sat_manager.py] leaves with the [IOError] of [save_data]; the record
    stays in the store, which is not the store it started from. *)
Theorem manager_insert_no_rollback :
  let o := SatManager.insert_data (empty_store 100) bad_disk
             ["bob"; "1 Main St"; "Pune"; "India"; "411001"; "50"]%string in
  raised o = Some IOError
  /\ records (data o) !! "bob"%string
     = Some (MkRecord "bob" "1 Main St" "Pune" "India" "411001" 50 true)
  /\ data o <> empty_store 100.
Proof.
  split; [reflexivity|]. split; [reflexivity|].
  intros H. apply (f_equal (fun st => records st !! "bob"%string)) in H.
  discriminate H.
Qed.

(** So do [update_score], [delete_one_record] and [set_max_score] of
    [sat_manager.py]. *)
Lemma manager_no_rollback :
  (sat_score <$> records (data (SatManager.update_score one_store bad_disk
                                  ["bob"; "700"]%string)) !! "bob"%string) = Some 700%float
  /\ records (data (SatManager.delete_one_record one_store bad_disk
                      ["bob"; "yes"]%string)) !! "bob"%string = None
  /\ max_score (data (SatManager.set_max_score one_store bad_disk ["800"%string])) = 800%float.
Proof. repeat split. Qed.

End Divergence.

(** ** The claims on ranks *)

Section RankClaims.

Import Py.

Implicit Types (st : store) (dk : disk) (inp : list string) (r : record).

(** C4, as the code has it: for a name that is a key, the rank query
    reports the rank 1 + the number of records with a strictly greater
    score and the number of records; in [sat.py] it reports the percentile
    (total - rank + 1) / total * 100 as well; and it reports the number of
    records with the candidate's score when that number exceeds 1. *)
Theorem rank_query st dk line inp r :
  records st !! strip line = Some r ->
  (exists q,
     int_truediv (total st - (1 + greater_count st (sat_score r)) + 1) (total st) = Ok q
     /\ Sat.get_rank st dk (line :: inp)
        = done st dk inp
            (Sat.Ranking (strip line) (sat_score r) (1 + greater_count st (sat_score r))
               (total st) (q * 100)%float (passed r)
             :: (if equal_count st (sat_score r) >? 1
                 then [Sat.SameScore (equal_count st (sat_score r))] else [])))
  /\ SatManager.get_rank st dk (line :: inp)
     = done st dk inp
         (SatManager.Ranking (strip line) (sat_score r) (1 + greater_count st (sat_score r))
            (total st)
          :: (if equal_count st (sat_score r) >? 1
              then [SatManager.SameScore (equal_count st (sat_score r))] else [])).
Proof.
  intros H. split; [|by apply manager_get_rank_found].
  destruct (sat_get_rank_found st dk line inp r H) as (q & Hq & Hr).
  rewrite (Z.add_comm (greater_count st (sat_score r)) 1) in Hq, Hr. eauto.
Qed.

Lemma rank_query_witness :
  records three_store !! strip " joe " = Some joe
  /\ out (Sat.get_rank three_store good_disk [" joe "%string])
     = [Sat.Ranking "joe" 300 3 3 (SF2Prim (S754_finite false 4691249611844266 (-47))) false]
  /\ out (SatManager.get_rank three_store good_disk [" joe "%string])
     = [SatManager.Ranking "joe" 300 3 3].
Proof.
  assert (H : records three_store !! strip " joe " = Some joe) by reflexivity.
  destruct (rank_query three_store good_disk " joe " [] joe H) as [(q & Hq & H1) H2].
  split; [exact H|]. split.
  - rewrite H1. vm_compute in Hq. injection Hq as <-. vm_compute. reflexivity.
  - rewrite H2. vm_compute. reflexivity.
Defined.

(** C4 fails as stated: with one record, the query of [sat.py] prints no
    count of equal scores, and the query of [sat_manager.py] prints no
    percentile either. *)
Lemma rank_query_without_count :
  equal_count one_store 500 = 1
  /\ out (Sat.get_rank one_store good_disk ["bob"%string])
     = [Sat.Ranking "bob" 500 1 1 100 true]
  /\ out (SatManager.get_rank one_store good_disk ["bob"%string])
     = [SatManager.Ranking "bob" 500 1 1].
Proof. repeat split. Qed.

(** In the sample store of three, no score is above bob's. *)
Lemma three_store_top n r :
  records three_store !! n = Some r -> (sat_score bob <? sat_score r)%float = false.
Proof.
  intros Hn. unfold three_store in Hn. simpl in Hn.
  rewrite !lookup_insert_Some, lookup_singleton_Some in Hn.
  destruct Hn as [[_ <-]|[_ [[_ <-]|[_ [_ <-]]]]]; reflexivity.
Qed.

(** C6: two records with equal scores get the same rank from the query, in
    [sat.py] and in [sat_manager.py]; and the rank is 1 when no record has
    a greater score. *)
Theorem rank_stable_under_ties st dk l1 l2 inp1 inp2 r1 r2 :
  records st !! strip l1 = Some r1 ->
  records st !! strip l2 = Some r2 ->
  (sat_score r1 =? sat_score r2)%float = true ->
  exists k,
    Sat.reported_rank (Sat.get_rank st dk (l1 :: inp1)) = Some k
    /\ Sat.reported_rank (Sat.get_rank st dk (l2 :: inp2)) = Some k
    /\ SatManager.reported_rank (SatManager.get_rank st dk (l1 :: inp1)) = Some k
    /\ SatManager.reported_rank (SatManager.get_rank st dk (l2 :: inp2)) = Some k
    /\ ((forall n r, records st !! n = Some r -> (sat_score r1 <? sat_score r)%float = false) ->
        k = 1).
Proof.
  intros H1 H2 Heq. exists (1 + greater_count st (sat_score r1)).
  destruct (sat_get_rank_found st dk l1 inp1 r1 H1) as (q1 & _ & ->).
  destruct (sat_get_rank_found st dk l2 inp2 r2 H2) as (q2 & _ & ->).
  rewrite (manager_get_rank_found st dk l1 inp1 r1 H1).
  rewrite (manager_get_rank_found st dk l2 inp2 r2 H2).
  rewrite <- (greater_count_eqb st _ _ Heq). unfold Sat.reported_rank, SatManager.reported_rank.
  simpl. rewrite (Z.add_comm (greater_count st (sat_score r1)) 1).
  repeat split. intros Htop. by rewrite greater_count_top.
Qed.

Lemma rank_stable_under_ties_witness :
  Sat.reported_rank (Sat.get_rank three_store good_disk ["bob"%string]) = Some 1
  /\ Sat.reported_rank (Sat.get_rank three_store good_disk ["amy"%string]) = Some 1.
Proof.
  assert (Hb : records three_store !! strip "bob" = Some bob) by (vm_compute; reflexivity).
  assert (Ha : records three_store !! strip "amy" = Some amy) by (vm_compute; reflexivity).
  assert (He : (sat_score bob =? sat_score amy)%float = true) by reflexivity.
  destruct (rank_stable_under_ties three_store good_disk "bob" "amy" [] [] bob amy Hb Ha He)
    as (k & K1 & K2 & _ & _ & Ktop).
  assert (Hk : k = 1) by (apply Ktop; exact three_store_top).
  subst k. split; assumption.
Defined.

End RankClaims.

(** ** The claim on the pass flag *)

Section PassFlagClaim.

Import Py.

Implicit Types (st : store) (dk : disk) (inp : list string) (r : record).

Lemma three_store_ok : store_ok three_store.
Proof.
  intros n r Hn. unfold three_store in Hn. simpl in Hn.
  rewrite !lookup_insert_Some, lookup_singleton_Some in Hn.
  destruct Hn as [[_ <-]|[_ [[_ <-]|[_ [_ <-]]]]]; reflexivity.
Qed.

(** When [set_max_score] takes a new maximum and the file can be written,
    the document on the disk is the dump of the store it ends with, which
    has the new maximum and the flags of the pass rule, whatever the flags
    were before. *)
Lemma set_max_score_written st f inp m inp' o o' :
  (Sat.ask_max inp = Got (Some m) inp' o ->
   let e := Sat.set_max_score st (Disk f true) inp in
   max_score (data e) = m /\ store_ok (data e)
   /\ content (dsk e) = Document (dump (data e)))
  /\ (SatManager.ask_max inp = Got (Some m) inp' o' ->
      let e := SatManager.set_max_score st (Disk f true) inp in
      max_score (data e) = m /\ store_ok (data e)
      /\ content (dsk e) = Document (dump (data e))).
Proof.
  split; intros Ha.
  - unfold Sat.set_max_score, Sat.save_data. rewrite Ha. simpl.
    split; [done|]. split; [apply sat_recompute_ok|done].
  - unfold SatManager.set_max_score, SatManager.save_then, SatManager.save_data.
    rewrite Ha. simpl. split; [done|]. split; [apply manager_recompute_ok|done].
Qed.




(** The change of the maximum from 1600 to 800 turns the flag of the score
    300, and the rule has its edge at 480 under the maximum 1600. *)
Lemma set_max_score_flips :
  (passed <$> records three_store !! "joe"%string) = Some false
  /\ (passed <$> records (data (Sat.set_max_score three_store good_disk ["800"%string]))
        !! "joe"%string) = Some true
  /\ pass_rule 1600 0x1.e000000000001p+8 = true
  /\ pass_rule 1600 480 = false.
Proof. repeat split; vm_compute; reflexivity. Qed.

End PassFlagClaim.

(** ** What the operations keep *)

Section Frames.

Import Py.

Implicit Types (st : store) (dk : disk) (inp : list string) (r : record).

(** X1: a score that [validate_score] of [sat.py] accepts lies between 0
    and the maximum of the store, as soon as neither of the two is NaN. *)
Theorem validate_score_in_range st s x :
  fst (Sat.validate_score st s) = Some x ->
  is_nan x = false -> is_nan (max_score st) = false ->
  (0 <=? x)%float = true /\ (x <=? max_score st)%float = true.
Proof.
  intros (_ & H0 & H1)%validate_score_accepts Hx Hm. by apply score_in_range.
Qed.

Lemma validate_score_in_range_witness :
  (0 <=? 480.5)%float = true /\ (480.5 <=? max_score one_store)%float = true.
Proof.
  apply (validate_score_in_range one_store " 480.5 " 480.5%float); reflexivity.
Defined.

(** X2: [insert_data] leaves every record of the store as it was, in
    [sat.py] and in [sat_manager.py]: it never overwrites a candidate. *)
Theorem insert_keeps_records st dk inp n r :
  records st !! n = Some r ->
  records (data (Sat.insert_data st dk inp)) !! n = Some r
  /\ records (data (SatManager.insert_data st dk inp)) !! n = Some r.
Proof.
  intros Hn. split.
  - unfold Sat.insert_data, Sat.save_data.
    destruct (Sat.ask_name (records st) inp) as [[k|] inp1 o1|o1] eqn:Hk; simpl; auto.
    apply ask_name_new in Hk.
    destruct inp1 as [|l1 [|l2 [|l3 inp1]]]; simpl; auto.
    destruct (Sat.ask_pincode inp1) as [p inp2 o2|o2]; simpl; auto.
    destruct (Sat.ask_score st inp2) as [s inp3 o3|o3]; simpl; auto.
    assert (k <> n) by congruence.
    destruct (writable dk); simpl.
    + by rewrite lookup_insert_ne.
    + by rewrite lookup_delete_ne, lookup_insert_ne.
  - unfold SatManager.insert_data, SatManager.save_then, SatManager.save_data.
    destruct inp as [|l inp]; simpl; auto.
    destruct (String.eqb _ _); simpl; auto.
    destruct (has_key _ _) eqn:Hk; simpl; auto.
    apply has_key_false in Hk.
    destruct inp as [|l1 [|l2 [|l3 [|l4 inp1]]]]; simpl; auto.
    destruct (SatManager.ask_score inp1) as [s inp3 o3|o3]; simpl; auto.
    assert (strip l <> n) by congruence.
    destruct (writable dk); simpl; by rewrite lookup_insert_ne.
Qed.

Lemma insert_keeps_records_witness :
  records (data (Sat.insert_data one_store good_disk
                   ["amy"; "2 High St"; "Delhi"; "India"; "110001"; "700"]%string))
    !! "bob"%string = Some bob.
Proof.
  apply (insert_keeps_records one_store good_disk
           ["amy"; "2 High St"; "Delhi"; "India"; "110001"; "700"]%string "bob" bob).
  reflexivity.
Defined.

Lemma well_keyed_insert m recs n r :
  well_keyed (Store m recs) -> name r = n -> well_keyed (Store m (<[n := r]> recs)).
Proof.
  intros Hok Hr k r' H. simpl in *.
  destruct (decide (n = k)) as [->|Hne].
  - rewrite lookup_insert_eq in H. by inversion H; subst.
  - rewrite lookup_insert_ne in H by done. by apply (Hok k).
Qed.

Lemma well_keyed_delete m recs n :
  well_keyed (Store m recs) -> well_keyed (Store m (delete n recs)).
Proof.
  intros Hok k r' H. simpl in *.
  apply lookup_delete_Some in H as [_ H]. by apply (Hok k).
Qed.

Lemma well_keyed_flags m m' (f : record -> bool) recs :
  well_keyed (Store m recs) ->
  well_keyed (Store m' ((fun r => set_passed (f r) r) <$> recs)).
Proof.
  intros Hok k r' H. simpl in *. rewrite lookup_fmap in H.
  destruct (recs !! k) as [r|] eqn:Hk; simplify_eq/=.
  destruct r. by apply (Hok k _ Hk).
Qed.

(** X3: every operation keeps each record under its own name: if the key
    of every record is its [name] field before an insertion, an update, a
    deletion or a change of the maximum, it is so afterwards, in [sat.py]
    and in [sat_manager.py]. *)
Theorem operations_keep_names st dk inp :
  well_keyed st ->
  (forall c, well_keyed (data (Sat.exec c st dk inp)))
  /\ (forall c, well_keyed (data (SatManager.exec c st dk inp))).
Proof.
  intros Hok. destruct st as [m recs]. split; intros []; simpl.
  - unfold Sat.insert_data, Sat.save_data, done, eof.
    repeat (case_match; simplify_eq/=); auto.
    + apply well_keyed_insert; done.
    + apply well_keyed_delete, well_keyed_insert; done.
  - unfold Sat.update_score, Sat.save_data, done, eof.
    repeat (case_match; simplify_eq/=); auto.
    + apply well_keyed_insert; [done|].
      match goal with H : _ !! _ = Some ?r |- _ => destruct r; apply (Hok _ _ H) end.
    + rewrite insert_insert_eq. apply well_keyed_insert; [done|].
      match goal with H : _ !! _ = Some ?r |- _ => destruct r; apply (Hok _ _ H) end.
  - unfold Sat.delete_one_record, Sat.save_data, done, eof.
    repeat (case_match; simplify_eq/=); auto.
    + by apply well_keyed_delete.
    + apply well_keyed_insert; [by apply well_keyed_delete|].
      match goal with H : _ !! _ = Some ?r |- _ => apply (Hok _ _ H) end.
  - unfold Sat.set_max_score, Sat.save_data, Sat.recompute, done, eof.
    repeat (case_match; simplify_eq/=); auto.
    + by apply (well_keyed_flags m).
    + apply (well_keyed_flags m). by apply (well_keyed_flags m).
  - unfold SatManager.insert_data, SatManager.save_then, SatManager.save_data, done, eof.
    repeat (case_match; simplify_eq/=); auto; by apply well_keyed_insert.
  - unfold SatManager.update_score, SatManager.save_then, SatManager.save_data, done, eof.
    repeat (case_match; simplify_eq/=); auto.
    all: apply well_keyed_insert; [done|].
    all: match goal with H : _ !! _ = Some ?r |- _ => destruct r; apply (Hok _ _ H) end.
  - unfold SatManager.delete_one_record, SatManager.save_then, SatManager.save_data, done, eof.
    repeat (case_match; simplify_eq/=); auto; by apply well_keyed_delete.
  - unfold SatManager.set_max_score, SatManager.save_then, SatManager.save_data,
      SatManager.recompute, done, eof.
    repeat (case_match; simplify_eq/=); auto.
    all: by apply (well_keyed_flags m _ (fun r => pass_rule _ (sat_score r))).
Qed.

Lemma three_store_keyed : well_keyed three_store.
Proof.
  intros n r Hn. unfold three_store in Hn. simpl in Hn.
  rewrite !lookup_insert_Some, lookup_singleton_Some in Hn.
  destruct Hn as [[<- <-]|[_ [[<- <-]|[_ [<- <-]]]]]; reflexivity.
Qed.

Lemma operations_keep_names_witness :
  well_keyed three_store
  /\ well_keyed (data (Sat.exec Sat.Insert three_store good_disk
                         ["zoe"; "4 Hill St"; "Goa"; "India"; "403001"; "900"]%string)).
Proof.
  split; [exact three_store_keyed|].
  exact (proj1 (operations_keep_names three_store good_disk
                  ["zoe"; "4 Hill St"; "Goa"; "India"; "403001"; "900"]%string
                  three_store_keyed) Sat.Insert).
Defined.

End Frames.

(** ** What the operations change *)

Section Effects.

Import Py.

Implicit Types (st : store) (dk : disk) (inp : list string) (r : record).

Lemma identity_of_set_score s p r : identity_of (set_score s p r) = identity_of r.
Proof. by destruct r. Qed.

Lemma lookup_identity_insert (recs : gmap string record) k r r' n :
  recs !! k = Some r -> identity_of r' = identity_of r ->
  identity_of <$> (<[k := r']> recs) !! n = identity_of <$> recs !! n.
Proof.
  intros Hk Hr. destruct (decide (k = n)) as [<-|Hne].
  - rewrite lookup_insert_eq, Hk. simpl. by rewrite Hr.
  - by rewrite lookup_insert_ne.
Qed.

(** X4: [update_score] touches scores and flags only: after it, in
    [sat.py] and in [sat_manager.py], the store has the same maximum and
    the same keys, and under each key a record with the same name, address,
    city, country and pincode as before. *)
Theorem update_score_keeps_identity st dk inp n :
  (max_score (data (Sat.update_score st dk inp)) = max_score st
   /\ identity_of <$> records (data (Sat.update_score st dk inp)) !! n
      = identity_of <$> records st !! n)
  /\ (max_score (data (SatManager.update_score st dk inp)) = max_score st
      /\ identity_of <$> records (data (SatManager.update_score st dk inp)) !! n
         = identity_of <$> records st !! n).
Proof.
  destruct st as [m recs]. split.
  - unfold Sat.update_score, Sat.save_data, done, eof.
    repeat (case_match; simplify_eq/=); split; try done.
    + eapply lookup_identity_insert; [done|]. apply identity_of_set_score.
    + rewrite insert_insert_eq. eapply lookup_identity_insert; [done|].
      by rewrite !identity_of_set_score.
  - unfold SatManager.update_score, SatManager.save_then, SatManager.save_data, done, eof.
    repeat (case_match; simplify_eq/=); split; try done.
    all: eapply lookup_identity_insert; [done|]; apply identity_of_set_score.
Qed.

Lemma lookup_identity_flags (f : record -> bool) (recs : gmap string record) n :
  identity_of <$> ((fun r => set_passed (f r) r) <$> recs) !! n = identity_of <$> recs !! n.
Proof.
  rewrite lookup_fmap. destruct (recs !! n) as [r|]; [|done]. simpl. by destruct r.
Qed.

Lemma ask_max_positive inp m inp' o :
  Sat.ask_max inp = Got (Some m) inp' o -> (m <=? 0)%float = false.
Proof.
  revert o. induction inp as [|line inp IH]; intros o; simpl; [done|].
  destruct (String.eqb _ _); [done|].
  destruct (float_of_string (strip line)) as [x|].
  - destruct (x <=? 0)%float eqn:Hx.
    + destruct (Sat.ask_max inp) as [a inp1 o1|o1]; simpl; [|done].
      intros [= -> -> <-]. by eapply IH.
    + by intros [= <- <- <-].
  - destruct (Sat.ask_max inp) as [a inp1 o1|o1]; simpl; [|done].
    intros [= -> -> <-]. by eapply IH.
Qed.

Lemma manager_ask_max_positive inp m inp' o :
  SatManager.ask_max inp = Got (Some m) inp' o -> (m <=? 0)%float = false.
Proof.
  revert o. induction inp as [|line inp IH]; intros o; simpl; [done|].
  destruct (String.eqb _ _); [done|].
  destruct (float_of_string (strip line)) as [x|].
  - destruct (x <=? 0)%float eqn:Hx.
    + destruct (SatManager.ask_max inp) as [a inp1 o1|o1]; simpl; [|done].
      intros [= -> -> <-]. by eapply IH.
    + by intros [= <- <- <-].
  - destruct (SatManager.ask_max inp) as [a inp1 o1|o1]; simpl; [|done].
    intros [= -> -> <-]. by eapply IH.
Qed.

(** X5: [set_max_score] touches the maximum and the flags only: it keeps
    the keys and, under each key, the name, the address, the city, the
    country, the pincode and the score; and the maximum it leaves is the
    old one, or a number that is not [<= 0].  So in [sat.py] and in
    [sat_manager.py]. *)
Theorem set_max_score_keeps_records st dk inp n :
  ((max_score (data (Sat.set_max_score st dk inp)) = max_score st
    \/ (max_score (data (Sat.set_max_score st dk inp)) <=? 0)%float = false)
   /\ set_passed false <$> records (data (Sat.set_max_score st dk inp)) !! n
      = set_passed false <$> records st !! n)
  /\ ((max_score (data (SatManager.set_max_score st dk inp)) = max_score st
       \/ (max_score (data (SatManager.set_max_score st dk inp)) <=? 0)%float = false)
      /\ set_passed false <$> records (data (SatManager.set_max_score st dk inp)) !! n
         = set_passed false <$> records st !! n).
Proof.
  assert (Hf : forall (f : record -> bool) (recs : gmap string record),
             set_passed false <$> ((fun r => set_passed (f r) r) <$> recs) !! n
             = set_passed false <$> recs !! n).
  { intros f recs. rewrite lookup_fmap. destruct (recs !! n) as [r|]; [|done].
    simpl. by destruct r. }
  destruct st as [m recs]. split.
  - unfold Sat.set_max_score, Sat.save_data, Sat.recompute.
    destruct (Sat.ask_max inp) as [[x|] inp1 o1|o1] eqn:Ha; simpl; auto.
    apply ask_max_positive in Ha.
    destruct (writable dk); simpl.
    + split; [by right|]. apply Hf.
    + split; [by left|]. by rewrite !Hf.
  - unfold SatManager.set_max_score, SatManager.save_then, SatManager.save_data,
      SatManager.recompute.
    destruct (SatManager.ask_max inp) as [[x|] inp1 o1|o1] eqn:Ha; simpl; auto.
    apply manager_ask_max_positive in Ha.
    destruct (writable dk); simpl; (split; [by right|]);
      apply (Hf (fun r => pass_rule x (sat_score r))).
Qed.

(** X6: when the name is a key, the confirmation is the one asked for and
    the file can be written, [delete_one_record] removes that record and no
    other, and the disk holds the dump of the store it leaves. *)
Theorem delete_removes_one st f line confirm inp r :
  records st !! strip line = Some r ->
  (strip confirm = ("DELETE " ++ strip line)%string ->
   let e := Sat.delete_one_record st (Disk f true) (line :: confirm :: inp) in
   data e = Store (max_score st) (delete (strip line) (records st))
   /\ content (dsk e) = Document (dump (data e)))
  /\ (lower (strip confirm) = "yes"%string ->
      let e := SatManager.delete_one_record st (Disk f true) (line :: confirm :: inp) in
      data e = Store (max_score st) (delete (strip line) (records st))
      /\ content (dsk e) = Document (dump (data e))).
Proof.
  intros Hr. split; intros Hc.
  - unfold Sat.delete_one_record, Sat.save_data.
    rewrite (present_not_empty _ _ _ Hr), Hr. simpl.
    apply String.eqb_eq in Hc. by rewrite Hc.
  - unfold SatManager.delete_one_record, SatManager.save_then, SatManager.save_data.
    rewrite (present_not_empty _ _ _ Hr). simpl.
    assert (Hk : has_key (strip line) (records st) = true).
    { unfold has_key. apply bool_decide_eq_true. by exists r. }
    rewrite Hk. apply String.eqb_eq in Hc. by rewrite Hc.
Qed.

Lemma delete_removes_one_witness :
  records (data (Sat.delete_one_record three_store good_disk
                   ["joe"; " DELETE joe"]%string)) !! "joe"%string = None
  /\ records (data (SatManager.delete_one_record three_store good_disk
                      ["joe"; "Yes"]%string)) !! "amy"%string = Some amy.
Proof.
  assert (H : records three_store !! strip "joe" = Some joe) by (vm_compute; reflexivity).
  destruct (delete_removes_one three_store Absent "joe" " DELETE joe" [] joe H) as [H1 _].
  destruct (delete_removes_one three_store Absent "joe" "Yes" [] joe H) as [_ H2].
  split.
  - unfold good_disk. rewrite (proj1 (H1 eq_refl)). vm_compute. reflexivity.
  - unfold good_disk. rewrite (proj1 (H2 eq_refl)). vm_compute. reflexivity.
Defined.

(** X7: when the file cannot be written, every operation of [sat.py] on a
    store that satisfies the pass rule ends with the store and the disk it
    started from. *)
Theorem failed_write_is_undone c st dk inp :
  writable dk = false -> store_ok st ->
  data (Sat.exec c st dk inp) = st /\ dsk (Sat.exec c st dk inp) = dk.
Proof. apply sat_rollback. Qed.

Lemma failed_write_is_undone_witness :
  data (Sat.exec Sat.SetMax three_store bad_disk ["800"%string]) = three_store
  /\ data (Sat.exec Sat.Delete three_store bad_disk ["joe"; "DELETE joe"]%string) = three_store.
Proof.
  split.
  - exact (proj1 (failed_write_is_undone Sat.SetMax three_store bad_disk ["800"%string]
                    eq_refl three_store_ok)).
  - exact (proj1 (failed_write_is_undone Sat.Delete three_store bad_disk
                    ["joe"; "DELETE joe"]%string eq_refl three_store_ok)).
Defined.

(** X8: whenever an operation of [sat.py] writes the file when it can, it
    prints the error of [save_data] and its own notice of failure when it
    cannot. *)
Theorem failed_write_is_reported c st f inp :
  Sat.Saved ∈ out (Sat.exec c st (Disk f true) inp) ->
  Sat.SaveError ∈ out (Sat.exec c st (Disk f false) inp)
  /\ Sat.failure_notice c ∈ out (Sat.exec c st (Disk f false) inp).
Proof. apply sat_failure_reported. Qed.

Lemma failed_write_is_reported_witness :
  Sat.SaveError ∈ out (Sat.exec Sat.SetMax three_store (Disk Absent false) ["800"%string])
  /\ Sat.MaxFailed ∈ out (Sat.exec Sat.SetMax three_store (Disk Absent false) ["800"%string]).
Proof.
  apply (failed_write_is_reported Sat.SetMax three_store Absent ["800"%string]).
  vm_compute. apply list_elem_of_further, list_elem_of_here.
Defined.

(** X9: a change of the maximum that is written sets the flag of every
    record by the pass rule under the new maximum, whatever the flags were,
    and the document on the disk is the dump of that store; so in [sat.py]
    and in [sat_manager.py]. *)
Theorem set_max_score_recomputes st f inp m inp' o o' :
  (Sat.ask_max inp = Got (Some m) inp' o ->
   let e := Sat.set_max_score st (Disk f true) inp in
   max_score (data e) = m /\ store_ok (data e)
   /\ content (dsk e) = Document (dump (data e)))
  /\ (SatManager.ask_max inp = Got (Some m) inp' o' ->
      let e := SatManager.set_max_score st (Disk f true) inp in
      max_score (data e) = m /\ store_ok (data e)
      /\ content (dsk e) = Document (dump (data e))).
Proof. apply set_max_score_written. Qed.

Lemma set_max_score_recomputes_witness :
  ~ store_ok stale_store
  /\ store_ok (data (Sat.set_max_score stale_store good_disk ["1600"%string])).
Proof.
  split.
  - intros H. specialize (H "bob"%string _ eq_refl). vm_compute in H. discriminate H.
  - apply (set_max_score_recomputes stale_store Absent ["1600"%string] 1600%float [] [] []).
    reflexivity.
Defined.

End Effects.

(** ** The queries *)

Section Queries.

Import Py.

Implicit Types (st : store) (dk : disk) (inp : list string) (r : record).

Variable fsum : list float -> float.

(** None of the queries touches the store or the disk. *)
Lemma queries_untouched st dk inp :
  (untouched st dk (SatQueries.view_all_data st dk inp)
   /\ untouched st dk (Sat.get_rank st dk inp)
   /\ untouched st dk (SatQueries.calculate_average fsum st dk inp)
   /\ untouched st dk (SatQueries.filter_by_pass_fail st dk inp))
  /\ (untouched st dk (ManagerQueries.view_all_data st dk inp)
      /\ untouched st dk (SatManager.get_rank st dk inp)
      /\ untouched st dk (ManagerQueries.calculate_average fsum st dk inp)
      /\ untouched st dk (ManagerQueries.filter_by_pass_fail st dk inp)).
Proof.
  unfold untouched. repeat split.
  all: try (unfold SatQueries.view_all_data; by destruct (is_empty _)).
  all: try (unfold ManagerQueries.view_all_data; by destruct (is_empty _)).
  all: try (unfold Sat.get_rank; destruct (is_empty _); [done|];
            destruct inp as [|l inp']; [done|];
            destruct (records st !! strip l); [|done]; by destruct (int_truediv _ _)).
  all: try (unfold SatQueries.calculate_average; destruct (is_empty _); [done|];
            by destruct (SatQueries.statistics _ _ _)).
  all: try (unfold SatQueries.filter_by_pass_fail; destruct (is_empty _); [done|];
            destruct inp as [|l inp']; [done|]; by destruct (_ && _)%bool).
  all: try (unfold SatManager.get_rank; destruct (is_empty _); [done|];
            destruct inp as [|l inp']; [done|]; by destruct (records st !! strip l)).
  all: try (unfold ManagerQueries.calculate_average; destruct (is_empty _); [done|];
            by destruct (SatQueries.mean _ _)).
  all: try (unfold ManagerQueries.filter_by_pass_fail; destruct (is_empty _); [done|];
            destruct inp as [|l inp']; [done|]; by destruct (_ && _)%bool).
Qed.

(** X10: the queries are read-only: looking at the records, asking for a
    rank, for the average or for the candidates of one status leaves the
    store and the disk as they were, whatever is typed; so in [sat.py] and
    in [sat_manager.py]. *)
Theorem queries_change_nothing st dk inp :
  (untouched st dk (SatQueries.view_all_data st dk inp)
   /\ untouched st dk (Sat.get_rank st dk inp)
   /\ untouched st dk (SatQueries.calculate_average fsum st dk inp)
   /\ untouched st dk (SatQueries.filter_by_pass_fail st dk inp))
  /\ (untouched st dk (ManagerQueries.view_all_data st dk inp)
      /\ untouched st dk (SatManager.get_rank st dk inp)
      /\ untouched st dk (ManagerQueries.calculate_average fsum st dk inp)
      /\ untouched st dk (ManagerQueries.filter_by_pass_fail st dk inp)).
Proof. apply queries_untouched. Qed.

End Queries.

(** ** The average and the filter *)

Section Statistics.

Import Py.

Implicit Types (st : store) (dk : disk) (inp : list string) (r : record).

Variable fsum : list float -> float.

Lemma length_status_split (rs : list record) :
  (length (List.filter passed rs) + length (List.filter (fun r => negb (passed r)) rs)
   = length rs)%nat.
Proof.
  induction rs as [|r rs IH]; [done|]. simpl. destruct (passed r); simpl; lia.
Qed.

Lemma mean_nonempty (l : list float) :
  l <> [] -> exists a, SatQueries.mean fsum l = Ok a.
Proof. destruct l; [done|]. intros _. unfold SatQueries.mean. simpl. eauto. Qed.

(** X11: on a store that is not empty, [calculate_average] of [sat.py]
    ends with a [ZeroDivisionError] when the maximum is zero, after the
    first line of the statistics; otherwise it ends well, and the numbers of
    passed and failed candidates that it prints add up to the number of
    candidates. *)
Theorem statistics_division m rs :
  rs <> [] ->
  ((m =? 0)%float = true ->
   SatQueries.statistics fsum m rs
   = ([SatQueries.StatisticsFor (Z.of_nat (length rs))], Some ZeroDivisionError))
  /\ ((m =? 0)%float = false ->
      snd (SatQueries.statistics fsum m rs) = None
      /\ exists rate np nf,
           SatQueries.PassRate rate np nf ∈ fst (SatQueries.statistics fsum m rs)
           /\ np + nf = Z.of_nat (length rs)).
Proof.
  intros Hrs. unfold SatQueries.statistics. rewrite !length_fmap.
  destruct (mean_nonempty (sat_score <$> rs)) as [avg ->]; [by destruct rs|].
  destruct (int_truediv_positive (Z.of_nat (length (List.filter passed rs)))
              (Z.of_nat (length rs))) as [q ->]; [destruct rs; [done|simpl; lia]|].
  unfold SatQueries.float_div. split; intros Hm; rewrite Hm; [done|].
  pose proof (length_status_split rs) as Hsplit.
  destruct (List.filter passed rs) as [|p ps] eqn:Hp;
    destruct (List.filter (fun r => negb (passed r)) rs) as [|x xs] eqn:Hf; simpl in *.
  - split; [done|]. eexists _, _, _.
    split; [do 2 apply list_elem_of_further; apply list_elem_of_here|]. lia.
  - split; [done|]. eexists _, _, _.
    split; [do 2 apply list_elem_of_further; apply list_elem_of_here|]. lia.
  - split; [done|]. eexists _, _, _.
    split; [do 2 apply list_elem_of_further; apply list_elem_of_here|]. lia.
  - split; [done|]. eexists _, _, _.
    split; [do 2 apply list_elem_of_further; apply list_elem_of_here|]. lia.
Qed.

(** X12: on a store that satisfies the pass rule, the filter lists, for
    [pass] and for [fail], the records of the store whose score is above,
    or not above, 0.3 times the maximum, and no other. *)
Theorem filter_follows_rule st want_pass r :
  store_ok st ->
  (r ∈ SatQueries.with_status want_pass (values (records st))
   <-> (exists n, records st !! n = Some r)
       /\ pass_rule (max_score st) (sat_score r) = want_pass).
Proof.
  intros Hok. unfold SatQueries.with_status.
  rewrite list_elem_of_In, filter_In, <- list_elem_of_In, elem_of_values.
  split.
  - intros [[n Hn] He]. split; [by exists n|].
    rewrite <- (Hok n r Hn). by apply Bool.eqb_prop.
  - intros [[n Hn] He]. split; [by exists n|].
    rewrite (Hok n r Hn), He. by destruct want_pass.
Qed.

Lemma filter_follows_rule_witness :
  joe ∈ SatQueries.with_status false (values (records three_store)).
Proof.
  apply (filter_follows_rule three_store false joe three_store_ok).
  split; [exists "joe"%string|]; vm_compute; reflexivity.
Defined.

(** X13: the choice of the filter is read without its blanks and in any
    letter case; any other word than [pass] and [fail] is refused, and no
    record is shown.  So in [sat.py] and in [sat_manager.py]. *)
Theorem filter_choice st dk l inp r n :
  records st !! n = Some r ->
  (lower (strip l) = "pass"%string ->
   out (SatQueries.filter_by_pass_fail st dk (l :: inp))
   = SatQueries.filter_answer true (values (records st))
   /\ out (ManagerQueries.filter_by_pass_fail st dk (l :: inp))
      = ManagerQueries.filter_answer true (values (records st)))
  /\ (lower (strip l) = "fail"%string ->
      out (SatQueries.filter_by_pass_fail st dk (l :: inp))
      = SatQueries.filter_answer false (values (records st))
      /\ out (ManagerQueries.filter_by_pass_fail st dk (l :: inp))
         = ManagerQueries.filter_answer false (values (records st)))
  /\ (lower (strip l) <> "pass"%string -> lower (strip l) <> "fail"%string ->
      out (SatQueries.filter_by_pass_fail st dk (l :: inp)) = [SatQueries.InvalidFilter]
      /\ out (ManagerQueries.filter_by_pass_fail st dk (l :: inp))
         = [ManagerQueries.InvalidFilter]).
Proof.
  intros Hn. unfold SatQueries.filter_by_pass_fail, ManagerQueries.filter_by_pass_fail.
  rewrite (present_not_empty _ _ _ Hn).
  split; [|split].
  - intros ->. done.
  - intros ->. done.
  - intros H1%String.eqb_neq H2%String.eqb_neq. by rewrite H1, H2.
Qed.

Lemma filter_choice_witness :
  out (SatQueries.filter_by_pass_fail one_store good_disk ["  PASS "%string])
  = SatQueries.filter_answer true (values (records one_store))
  /\ out (SatQueries.filter_by_pass_fail one_store good_disk ["passed"%string])
     = [SatQueries.InvalidFilter].
Proof.
  assert (H : records one_store !! "bob"%string = Some bob) by (vm_compute; reflexivity).
  destruct (filter_choice one_store good_disk "  PASS " [] bob "bob" H) as (H1 & _ & _).
  destruct (filter_choice one_store good_disk "passed" [] bob "bob" H) as (_ & _ & H3).
  split.
  - apply H1. vm_compute. reflexivity.
  - apply H3; vm_compute; discriminate.
Defined.

End Statistics.

Lemma statistics_division_witness :
  snd (SatQueries.statistics naive_sum 0 [bob]) = Some Py.ZeroDivisionError
  /\ snd (SatQueries.statistics naive_sum 1600 [bob; joe]) = None.
Proof.
  split.
  - destruct (statistics_division naive_sum 0%float [bob]) as [H _]; [discriminate|].
    rewrite H; reflexivity.
  - destruct (statistics_division naive_sum 1600%float [bob; joe]) as [_ H]; [discriminate|].
    apply H. reflexivity.
Defined.


(** ** The hint for a name that is no key *)

Section Hints.

Import Py.

Lemma prefix_refl s : String.prefix s s = true.
Proof. induction s as [|c s IH]; [done|]. simpl. by destruct (ascii_dec c c). Qed.

Lemma contains_refl s : SatManager.contains s s = true.
Proof. destruct s; [done|]. cbn [SatManager.contains]. by rewrite prefix_refl. Qed.

Lemma contains_empty s : SatManager.contains "" s = true.
Proof. by destruct s. Qed.

Lemma filter_all {A} (p : A -> bool) l : (forall x, p x = true) -> List.filter p l = l.
Proof. intros H. induction l as [|x l IH]; [done|]. simpl. by rewrite H, IH. Qed.

(** X14: the hint of [_suggest_similar_names] names at most three keys of
    the store, and only keys; a key that is the name typed, in another
    letter case, always brings a hint; and for the empty name every key is
    similar: the hint names the first three of them. *)
Theorem hint_names_keys name ks :
  (forall names, SatQueries.suggest_similar_names name ks = [SatQueries.DidYouMean names] ->
     names <> [] /\ (length names <= 3)%nat /\ forall n, n ∈ names -> n ∈ ks)
  /\ (forall k, k ∈ ks -> lower k = lower name ->
        SatQueries.suggest_similar_names name ks <> [])
  /\ (ks <> [] ->
      SatQueries.suggest_similar_names "" ks = [SatQueries.DidYouMean (take 3 ks)]).
Proof.
  unfold SatQueries.suggest_similar_names. split; [|split].
  - intros names. destruct (SatQueries.similar name ks) as [|n1 sim] eqn:Hs; [done|].
    intros [= <-]. split; [done|]. split.
    + destruct sim as [|n2 [|n3 sim]]; simpl; lia.
    + intros n Hn. apply (subseteq_take 3 (n1 :: sim)) in Hn. rewrite <- Hs in Hn.
      unfold SatQueries.similar in Hn.
      apply list_elem_of_In, filter_In in Hn as [Hn _]. by apply list_elem_of_In.
  - intros k Hk Hl.
    assert (k ∈ SatQueries.similar name ks) as Hin.
    { unfold SatQueries.similar. apply list_elem_of_In, filter_In.
      split; [by apply list_elem_of_In|]. by rewrite Hl, contains_refl. }
    destruct (SatQueries.similar name ks); [by inversion Hin|done].
  - intros Hks. unfold SatQueries.similar.
    rewrite filter_all; [by destruct ks|]. intros n. simpl. by rewrite contains_empty.
Qed.

End Hints.

(** ** The store and the file *)

Section Persistence.

Import Py.

Implicit Types (st : store) (dk : disk) (inp : list string) (r : record).

Lemma manager_ask_score_quiet inp : SatManager.Saved ∉ printed (SatManager.ask_score inp).
Proof.
  induction inp as [|line inp IH]; simpl; [set_solver|].
  repeat (case_match; simplify_eq/=); rewrite ?printed_emit; set_solver.
Qed.

Lemma manager_ask_max_quiet inp : SatManager.Saved ∉ printed (SatManager.ask_max inp).
Proof.
  induction inp as [|line inp IH]; simpl; [set_solver|].
  repeat (case_match; simplify_eq/=); rewrite ?printed_emit; set_solver.
Qed.

(** X15: after an operation that printed the notice of [save_data], in
    [sat.py] or in [sat_manager.py], the file holds the dump of the store
    that is in memory. *)
Theorem saved_store_is_on_disk st dk inp :
  (forall c, Sat.Saved ∈ out (Sat.exec c st dk inp) ->
     content (dsk (Sat.exec c st dk inp)) = Document (dump (data (Sat.exec c st dk inp))))
  /\ (forall c, SatManager.Saved ∈ out (SatManager.exec c st dk inp) ->
        content (dsk (SatManager.exec c st dk inp))
        = Document (dump (data (SatManager.exec c st dk inp)))).
Proof.
  split; intros []; simpl.
  - unfold Sat.insert_data, Sat.save_data.
    pose proof (ask_name_quiet (records st) inp) as Q1.
    destruct (Sat.ask_name (records st) inp) as [[n|] inp1 o1|o1]; simpl in *; [|done..].
    destruct inp1 as [|l1 [|l2 [|l3 inp1]]]; simpl; [done..|].
    pose proof (ask_pincode_quiet inp1) as Q2.
    destruct (Sat.ask_pincode inp1) as [p inp2 o2|o2]; simpl in *; [|set_solver].
    pose proof (ask_score_quiet st inp2) as Q3.
    destruct (Sat.ask_score st inp2) as [s inp3 o3|o3]; simpl in *; [|set_solver].
    destruct (writable dk); simpl; [done|set_solver].
  - unfold Sat.update_score, Sat.save_data.
    destruct (is_empty (records st)); simpl; [set_solver|].
    destruct inp as [|line inp]; simpl; [set_solver|].
    destruct (records st !! strip line) as [r|]; simpl; [|set_solver].
    pose proof (ask_score_quiet st inp) as Q3.
    destruct (Sat.ask_score st inp) as [s inp3 o3|o3]; simpl in *; [|set_solver].
    destruct (writable dk); simpl; [done|set_solver].
  - unfold Sat.delete_one_record, Sat.save_data.
    destruct (is_empty (records st)); simpl; [set_solver|].
    destruct inp as [|line inp]; simpl; [set_solver|].
    destruct (records st !! strip line) as [r|]; simpl; [|set_solver].
    destruct inp as [|line2 inp]; simpl; [set_solver|].
    destruct (String.eqb _ _); simpl; [|set_solver].
    destruct (writable dk); simpl; [done|set_solver].
  - unfold Sat.set_max_score, Sat.save_data.
    pose proof (ask_max_quiet inp) as Q1.
    destruct (Sat.ask_max inp) as [[m|] inp1 o1|o1]; simpl in *; [|set_solver..].
    destruct (writable dk); simpl; [done|set_solver].
  - unfold SatManager.insert_data, SatManager.save_then, SatManager.save_data.
    destruct inp as [|l inp]; simpl; [set_solver|].
    destruct (String.eqb _ _); simpl; [set_solver|].
    destruct (has_key _ _); simpl; [set_solver|].
    destruct inp as [|l1 [|l2 [|l3 [|l4 inp1]]]]; simpl; [set_solver..|].
    pose proof (manager_ask_score_quiet inp1) as Q3.
    destruct (SatManager.ask_score inp1) as [s inp3 o3|o3]; simpl in *; [|set_solver].
    destruct (writable dk); simpl; [done|set_solver].
  - unfold SatManager.update_score, SatManager.save_then, SatManager.save_data.
    destruct (is_empty (records st)); simpl; [set_solver|].
    destruct inp as [|line inp]; simpl; [set_solver|].
    destruct (records st !! strip line) as [r|]; simpl; [|set_solver].
    pose proof (manager_ask_score_quiet inp) as Q3.
    destruct (SatManager.ask_score inp) as [s inp3 o3|o3]; simpl in *; [|set_solver].
    destruct (writable dk); simpl; [done|set_solver].
  - unfold SatManager.delete_one_record, SatManager.save_then, SatManager.save_data.
    destruct (is_empty (records st)); simpl; [set_solver|].
    destruct inp as [|line inp]; simpl; [set_solver|].
    destruct (has_key _ _); simpl; [|set_solver].
    destruct inp as [|line2 inp]; simpl; [set_solver|].
    destruct (String.eqb _ _); simpl; [|set_solver].
    destruct (writable dk); simpl; [done|set_solver].
  - unfold SatManager.set_max_score, SatManager.save_then, SatManager.save_data.
    pose proof (manager_ask_max_quiet inp) as Q1.
    destruct (SatManager.ask_max inp) as [[m|] inp1 o1|o1]; simpl in *; [|set_solver..].
    destruct (writable dk); simpl; [done|set_solver].
Qed.

End Persistence.

(** ** Sessions *)

Section Sessions.

Import Py.

Implicit Types (st : store) (dk : disk) (inp : list string) (r : record).

Variable fsum : list float -> float.

Lemma dispatch_ok choice st dk inp :
  store_ok st -> store_ok (data (SatQueries.dispatch fsum choice st dk inp)).
Proof.
  intros Hok.
  destruct (queries_untouched fsum st dk inp) as [(Q2 & Q3 & Q6 & Q7) _].
  unfold SatQueries.dispatch, SatQueries.narrated.
  repeat (case_match; simpl); try done.
  - by apply sat_insert_ok.
  - by rewrite (proj1 Q2).
  - by rewrite (proj1 Q3).
  - by apply sat_update_ok.
  - by apply sat_delete_ok.
  - by rewrite (proj1 Q6).
  - by rewrite (proj1 Q7).
  - unfold SatQueries.explicit_save, Sat.save_data. by destruct (writable dk).
  - by apply sat_set_max_ok.
Qed.

Lemma manager_dispatch_ok choice st dk inp :
  store_ok st -> store_ok (data (ManagerQueries.dispatch fsum choice st dk inp)).
Proof.
  intros Hok.
  destruct (queries_untouched fsum st dk inp) as [_ (Q2 & Q3 & Q6 & Q7)].
  unfold ManagerQueries.dispatch, ManagerQueries.lifted.
  repeat (case_match; simpl); try done.
  - by apply manager_insert_ok.
  - by rewrite (proj1 Q2).
  - by rewrite (proj1 Q3).
  - by apply manager_update_ok.
  - by apply manager_delete_ok.
  - by rewrite (proj1 Q6).
  - by rewrite (proj1 Q7).
  - unfold ManagerQueries.explicit_save, ManagerQueries.lifted, SatManager.save_then,
      SatManager.save_data. by destruct (writable dk).
  - by apply manager_set_max_ok.
Qed.

(** X17: a whole session keeps the pass rule: from a store in which every
    record has the flag [sat_score > 0.3 * max_score], whatever is typed at
    the menu and for however many turns, the loop of [sat.py] and the loop
    of [sat_manager.py] are in a store in which every record has it. *)
Theorem session_keeps_pass_rule turns st dk inp o o' :
  store_ok st ->
  store_ok (SatQueries.final (SatQueries.run fsum turns st dk inp o))
  /\ store_ok (ManagerQueries.final (ManagerQueries.menu_loop fsum turns st dk inp o')).
Proof.
  intros Hok. split.
  - revert st dk inp o Hok. induction turns as [|turns IH]; intros st dk inp o Hok; [done|].
    simpl. destruct inp as [|l inp]; [by apply IH|].
    destruct (String.eqb _ _); [done|].
    pose proof (dispatch_ok (strip l) st dk inp Hok) as Hd.
    destruct (raised _); [by apply IH|].
    destruct (rest _); by apply IH.
  - revert st dk inp o' Hok. induction turns as [|turns IH]; intros st dk inp o' Hok; [done|].
    simpl. destruct inp as [|l inp]; [done|].
    destruct (String.eqb _ _); [done|].
    pose proof (manager_dispatch_ok (strip l) st dk inp Hok) as Hd.
    destruct (raised _); [done|]. by apply IH.
Qed.

(** X18: at the end of the input the loop of [sat.py] never ends: it
    catches the [EOFError] of [input] and asks again, so that it is still
    in the loop after any number of turns, with the store and the disk it
    had; the loop of [sat_manager.py] ends there with the [EOFError]. *)
Theorem session_at_end_of_input turns st dk o o' :
  (SatQueries.state (SatQueries.run fsum turns st dk [] o) = SatQueries.Looping
   /\ SatQueries.final (SatQueries.run fsum turns st dk [] o) = st
   /\ SatQueries.final_disk (SatQueries.run fsum turns st dk [] o) = dk)
  /\ ManagerQueries.state (ManagerQueries.menu_loop fsum (S turns) st dk [] o')
     = SatQueries.Crashed EOFError.
Proof.
  split; [|done].
  revert o. induction turns as [|turns IH]; intros o; [done|]. simpl. apply IH.
Qed.

(** X19: the loop of [sat.py] is never left with an exception: whatever
    is typed, and after any number of turns, it has ended at the choice [9]
    or it is still going. *)
Theorem run_never_crashes turns st dk inp o :
  SatQueries.state (SatQueries.run fsum turns st dk inp o) = SatQueries.Exited
  \/ SatQueries.state (SatQueries.run fsum turns st dk inp o) = SatQueries.Looping.
Proof.
  revert st dk inp o. induction turns as [|turns IH]; intros st dk inp o; [by right|].
  simpl. destruct inp as [|l inp]; [by apply IH|].
  destruct (String.eqb _ _); [by left|].
  destruct (raised _); [by apply IH|].
  destruct (rest _); by apply IH.
Qed.

End Sessions.

Lemma session_keeps_pass_rule_witness :
  store_ok three_store
  /\ store_ok (SatQueries.final
                 (SatQueries.run naive_sum 5 three_store good_disk
                    ["10"; "800"; ""; "5"; "joe"; "DELETE joe"; ""; "9"]%string [])).
Proof.
  split; [exact three_store_ok|].
  exact (proj1 (session_keeps_pass_rule naive_sum 5 three_store good_disk
                  ["10"; "800"; ""; "5"; "joe"; "DELETE joe"; ""; "9"]%string [] []
                  three_store_ok)).
Defined.

(** ** The input that a session reads *)

Section Consumption.

Import Py.

Implicit Types (st : store) (dk : disk) (inp : list string) (r : record).

Variable fsum : list float -> float.

Lemma shorter_emit {M A} inp l (o : list M) (x : read M A) :
  shorter inp x -> shorter (l :: inp) (emit o x).
Proof. destruct x; simpl; lia. Qed.

Lemma ask_name_shorter recs inp : shorter inp (Sat.ask_name recs inp).
Proof.
  induction inp as [|l inp IH]; simpl; [done|].
  destruct (Sat.validate_name _) as [[] o]; [|by apply shorter_emit].
  destruct (has_key _ _); simpl; lia.
Qed.

Lemma ask_pincode_shorter inp : shorter inp (Sat.ask_pincode inp).
Proof.
  induction inp as [|l inp IH]; simpl; [done|].
  destruct (Sat.check_pincode _); [by apply shorter_emit|simpl; lia].
Qed.

Lemma ask_score_shorter st inp : shorter inp (Sat.ask_score st inp).
Proof.
  induction inp as [|l inp IH]; simpl; [done|].
  destruct (Sat.validate_score _ _) as [[x|] o]; [simpl; lia|by apply shorter_emit].
Qed.

Lemma ask_max_shorter inp : shorter inp (Sat.ask_max inp).
Proof.
  induction inp as [|l inp IH]; simpl; [done|].
  destruct (String.eqb _ _); [simpl; lia|].
  destruct (float_of_string _) as [x|]; [|by apply shorter_emit].
  destruct (x <=? 0)%float; [by apply shorter_emit|simpl; lia].
Qed.

Lemma manager_ask_score_shorter inp : shorter inp (SatManager.ask_score inp).
Proof.
  induction inp as [|l inp IH]; simpl; [done|].
  destruct (float_of_string _) as [x|]; [simpl; lia|by apply shorter_emit].
Qed.

Lemma manager_ask_max_shorter inp : shorter inp (SatManager.ask_max inp).
Proof.
  induction inp as [|l inp IH]; simpl; [done|].
  destruct (String.eqb _ _); [simpl; lia|].
  destruct (float_of_string _) as [x|]; [|by apply shorter_emit].
  destruct (x <=? 0)%float; [by apply shorter_emit|simpl; lia].
Qed.

(** No branch of the menu hands back more than it was given. *)
Lemma dispatch_rest choice st dk inp :
  (length (rest (SatQueries.dispatch fsum choice st dk inp)) <= length inp)%nat.
Proof.
  unfold SatQueries.dispatch, SatQueries.narrated.
  repeat (case_match; simpl); try lia;
    repeat match goal with H : _ = _ :> bool |- _ => clear H end.
  - unfold Sat.insert_data, Sat.save_data.
    pose proof (ask_name_shorter (records st) inp) as S1.
    destruct (Sat.ask_name _ inp) as [[n|] inp1 o1|o1]; simpl in *; try lia.
    destruct inp1 as [|l1 [|l2 [|l3 inp1]]]; simpl in *; try lia.
    pose proof (ask_pincode_shorter inp1) as S2.
    destruct (Sat.ask_pincode inp1) as [p inp2 o2|o2]; simpl in *; try lia.
    pose proof (ask_score_shorter st inp2) as S3.
    destruct (Sat.ask_score st inp2) as [s inp3 o3|o3]; simpl in *; try lia.
    destruct (writable dk); simpl; lia.
  - unfold SatQueries.view_all_data. destruct (is_empty _); simpl; lia.
  - unfold Sat.get_rank. destruct (is_empty _); simpl; [lia|].
    destruct inp as [|l inp']; simpl; [lia|].
    destruct (records st !! strip l); simpl; [|lia].
    destruct (int_truediv _ _); simpl; lia.
  - unfold Sat.update_score, Sat.save_data. destruct (is_empty _); simpl; [lia|].
    destruct inp as [|l inp']; simpl; [lia|].
    destruct (records st !! strip l); simpl; [|lia].
    pose proof (ask_score_shorter st inp') as S3.
    destruct (Sat.ask_score st inp') as [s inp3 o3|o3]; simpl in *; try lia.
    destruct (writable dk); simpl; lia.
  - unfold Sat.delete_one_record, Sat.save_data. destruct (is_empty _); simpl; [lia|].
    destruct inp as [|l inp']; simpl; [lia|].
    destruct (records st !! strip l); simpl; [|lia].
    destruct inp' as [|l2 inp']; simpl; [lia|].
    destruct (String.eqb _ _); simpl; [|lia].
    destruct (writable dk); simpl; lia.
  - unfold SatQueries.calculate_average. destruct (is_empty _); simpl; [lia|].
    destruct (SatQueries.statistics _ _ _); simpl; lia.
  - unfold SatQueries.filter_by_pass_fail. destruct (is_empty _); simpl; [lia|].
    destruct inp as [|l inp']; simpl; [lia|]. destruct (_ && _)%bool; simpl; lia.
  - unfold SatQueries.explicit_save, Sat.save_data. destruct (writable dk); simpl; lia.
  - unfold Sat.set_max_score, Sat.save_data.
    pose proof (ask_max_shorter inp) as S1.
    destruct (Sat.ask_max inp) as [[m|] inp1 o1|o1]; simpl in *; try lia.
    destruct (writable dk); simpl; lia.
Qed.

Lemma manager_dispatch_rest choice st dk inp :
  (length (rest (ManagerQueries.dispatch fsum choice st dk inp)) <= length inp)%nat.
Proof.
  unfold ManagerQueries.dispatch, ManagerQueries.lifted.
  repeat (case_match; simpl); try lia;
    repeat match goal with H : _ = _ :> bool |- _ => clear H end.
  - unfold SatManager.insert_data, SatManager.save_then, SatManager.save_data.
    destruct inp as [|l inp']; simpl; [lia|].
    destruct (String.eqb _ _); simpl; [lia|].
    destruct (has_key _ _); simpl; [lia|].
    destruct inp' as [|l1 [|l2 [|l3 [|l4 inp1]]]]; simpl; try lia.
    pose proof (manager_ask_score_shorter inp1) as S3.
    destruct (SatManager.ask_score inp1) as [s inp3 o3|o3]; simpl in *; try lia.
    destruct (writable dk); simpl; lia.
  - unfold ManagerQueries.view_all_data. destruct (is_empty _); simpl; lia.
  - unfold SatManager.get_rank. destruct (is_empty _); simpl; [lia|].
    destruct inp as [|l inp']; simpl; [lia|].
    destruct (records st !! strip l); simpl; lia.
  - unfold SatManager.update_score, SatManager.save_then, SatManager.save_data.
    destruct (is_empty _); simpl; [lia|].
    destruct inp as [|l inp']; simpl; [lia|].
    destruct (records st !! strip l); simpl; [|lia].
    pose proof (manager_ask_score_shorter inp') as S3.
    destruct (SatManager.ask_score inp') as [s inp3 o3|o3]; simpl in *; try lia.
    destruct (writable dk); simpl; lia.
  - unfold SatManager.delete_one_record, SatManager.save_then, SatManager.save_data.
    destruct (is_empty _); simpl; [lia|].
    destruct inp as [|l inp']; simpl; [lia|].
    destruct (has_key _ _); simpl; [|lia].
    destruct inp' as [|l2 inp']; simpl; [lia|].
    destruct (String.eqb _ _); simpl; [|lia].
    destruct (writable dk); simpl; lia.
  - unfold ManagerQueries.calculate_average. destruct (is_empty _); simpl; [lia|].
    destruct (SatQueries.mean _ _); simpl; lia.
  - unfold ManagerQueries.filter_by_pass_fail. destruct (is_empty _); simpl; [lia|].
    destruct inp as [|l inp']; simpl; [lia|]. destruct (_ && _)%bool; simpl; lia.
  - unfold ManagerQueries.explicit_save, ManagerQueries.lifted, SatManager.save_then,
      SatManager.save_data. destruct (writable dk); simpl; lia.
  - unfold SatManager.set_max_score, SatManager.save_then, SatManager.save_data.
    pose proof (manager_ask_max_shorter inp) as S1.
    destruct (SatManager.ask_max inp) as [[m|] inp1 o1|o1]; simpl in *; try lia.
    destruct (writable dk); simpl; lia.
Qed.

(** X20: on a finite input the loop of [sat_manager.py] always ends, at
    the choice [9] or with an exception: given more turns than there are
    lines, it is not in the loop any more.  The loop of [sat.py], given as
    many turns, has ended at the choice [9] or has read the whole input. *)
Theorem session_reads_input turns st dk inp o o' :
  (length inp < turns)%nat ->
  ManagerQueries.state (ManagerQueries.menu_loop fsum turns st dk inp o') <> SatQueries.Looping
  /\ (SatQueries.state (SatQueries.run fsum turns st dk inp o) = SatQueries.Exited
      \/ SatQueries.unread (SatQueries.run fsum turns st dk inp o) = []).
Proof.
  intros Hlen. split.
  - revert st dk inp o' Hlen.
    induction turns as [|turns IH]; intros st dk inp o' Hlen; [lia|].
    simpl. destruct inp as [|l inp]; [done|].
    destruct (String.eqb _ _); [done|].
    pose proof (manager_dispatch_rest (strip l) st dk inp) as Hr.
    destruct (raised _); [done|]. apply IH. simpl in Hlen. lia.
  - assert (Hend : forall n st dk o,
               SatQueries.unread (SatQueries.run fsum n st dk [] o) = []).
    { induction n as [|n IHn]; intros; [done|]. simpl. apply IHn. }
    revert st dk inp o Hlen.
    induction turns as [|turns IH]; intros st dk inp o Hlen; [lia|].
    simpl. destruct inp as [|l inp]; [right; apply Hend|].
    destruct (String.eqb _ _); [by left|].
    pose proof (dispatch_rest (strip l) st dk inp) as Hr.
    destruct (raised _); [apply IH; simpl in Hlen; lia|].
    destruct (rest _) as [|x xs] eqn:Hrest; [right; apply Hend|].
    apply IH. simpl in *. lia.
Qed.

End Consumption.

Lemma session_reads_input_witness :
  ManagerQueries.state
    (ManagerQueries.menu_loop naive_sum 4 one_store good_disk ["3"; "bob"; "9"]%string [])
  <> SatQueries.Looping
  /\ ManagerQueries.state
       (ManagerQueries.menu_loop naive_sum 4 one_store good_disk ["3"; "bob"; "9"]%string [])
     = SatQueries.Exited.
Proof.
  split; [|vm_compute; reflexivity].
  apply (session_reads_input naive_sum 4 one_store good_disk ["3"; "bob"; "9"]%string [] []).
  simpl. lia.
Defined.

(** ** The order of the ranks *)

Section RankOrder.

Import Py.

Implicit Types (st : store) (dk : disk) (inp : list string) (r : record).

Lemma SFltb_irrefl a : SFltb a a = false.
Proof.
  unfold SFltb. destruct a as [s|s| |s m e]; simpl; try done; try (by destruct s).
  destruct s; rewrite Z.compare_refl; change (Pos.compare_cont Eq m m) with (m ?= m)%positive;
    by rewrite Pos.compare_refl.
Qed.

Lemma SFltb_trans a b c : SFltb a b = true -> SFltb b c = true -> SFltb a c = true.
Proof.
  unfold SFltb.
  destruct a as [sa|sa| |sa ma ea], b as [sb|sb| |sb mb eb], c as [sc|sc| |sc mc ec];
    simpl; try done;
    try (destruct sa; try done); try (destruct sb; try done); try (destruct sc; try done).
  all: change (Pos.compare_cont Eq ma mb) with (ma ?= mb)%positive;
       change (Pos.compare_cont Eq mb mc) with (mb ?= mc)%positive;
       change (Pos.compare_cont Eq ma mc) with (ma ?= mc)%positive.
  all: destruct (Z.compare_spec ea eb), (Z.compare_spec eb ec), (Z.compare_spec ea ec);
       try done; try lia.
  all: destruct (Pos.compare_spec ma mb), (Pos.compare_spec mb mc), (Pos.compare_spec ma mc);
       simpl; try done; try lia.
Qed.

Lemma float_ltb_irrefl (x : float) : (x <? x)%float = false.
Proof. rewrite ltb_spec. apply SFltb_irrefl. Qed.

Lemma float_ltb_trans (x y z : float) :
  (x <? y)%float = true -> (y <? z)%float = true -> (x <? z)%float = true.
Proof. rewrite !ltb_spec. apply SFltb_trans. Qed.

Lemma count_if_le {A} (p : A -> bool) l : 0 <= count_if p l <= Z.of_nat (length l).
Proof.
  induction l as [|x l IH]; [done|]. rewrite count_if_cons. simpl length.
  destruct (p x); lia.
Qed.

(** Counting with a weaker test counts more, and strictly more when one
    element passes the weaker test only. *)
Lemma count_if_mono {A} (p q : A -> bool) l :
  (forall x, p x = true -> q x = true) -> count_if p l <= count_if q l.
Proof.
  intros H. induction l as [|x l IH]; [done|]. rewrite !count_if_cons.
  destruct (p x) eqn:Hp; [rewrite (H x Hp); lia|]. destruct (q x); lia.
Qed.

Lemma count_if_strict {A} (p q : A -> bool) l y :
  (forall x, p x = true -> q x = true) -> y ∈ l -> p y = false -> q y = true ->
  count_if p l < count_if q l.
Proof.
  intros H Hy Hp Hq. induction l as [|x l IH]; [by inversion Hy|].
  rewrite !count_if_cons. pose proof (count_if_mono p q l H) as Hm.
  apply elem_of_cons in Hy as [<-|Hy].
  - rewrite Hp, Hq. lia.
  - specialize (IH Hy). destruct (p x) eqn:Hx; [rewrite (H x Hx); lia|].
    destruct (q x); lia.
Qed.

Lemma greater_count_values st s :
  greater_count st s = count_if (fun r => (s <? sat_score r)%float) (values (records st)).
Proof. rewrite <- sat_higher_count. unfold Sat.higher_count, Sat.all_scores.
  by rewrite count_if_fmap. Qed.

Lemma total_values st : total st = Z.of_nat (length (values (records st))).
Proof. unfold total. by rewrite length_values. Qed.

(** X21: the rank that the query reports lies between 1 and the number of
    records, in [sat.py] and in [sat_manager.py]. *)
Theorem rank_within_bounds st dk line inp r :
  records st !! strip line = Some r ->
  exists k,
    Sat.reported_rank (Sat.get_rank st dk (line :: inp)) = Some k
    /\ SatManager.reported_rank (SatManager.get_rank st dk (line :: inp)) = Some k
    /\ 1 <= k <= total st.
Proof.
  intros Hr. exists (1 + greater_count st (sat_score r)).
  destruct (sat_get_rank_found st dk line inp r Hr) as (q & _ & ->).
  rewrite (manager_get_rank_found st dk line inp r Hr).
  unfold Sat.reported_rank, SatManager.reported_rank. simpl.
  rewrite (Z.add_comm (greater_count st (sat_score r)) 1). repeat split.
  - rewrite greater_count_values. pose proof (count_if_le
      (fun r0 => (sat_score r <? sat_score r0)%float) (values (records st))). lia.
  - rewrite greater_count_values, total_values.
    assert (Hin : r ∈ values (records st)) by (apply elem_of_values; eauto).
    pose proof (count_if_strict (fun _ => false)
                  (fun r0 => negb (sat_score r <? sat_score r0)%float)
                  (values (records st)) r) as Hs.
    assert (Hsum : forall l : list record,
               count_if (fun r0 => (sat_score r <? sat_score r0)%float) l
               + count_if (fun r0 => negb (sat_score r <? sat_score r0)%float) l
               = Z.of_nat (length l)).
    { induction l as [|x l IH]; [done|]. rewrite !count_if_cons. simpl length.
      destruct (sat_score r <? sat_score x)%float; simpl; lia. }
    specialize (Hsum (values (records st))).
    rewrite (count_if_none (fun _ : record => false)) in Hs by done.
    specialize (Hs ltac:(done) Hin eq_refl).
    rewrite float_ltb_irrefl in Hs. specialize (Hs eq_refl). lia.
Qed.

Lemma rank_within_bounds_witness :
  exists k, Sat.reported_rank (Sat.get_rank three_store good_disk ["joe"%string]) = Some k
            /\ 1 <= k <= 3.
Proof.
  assert (H : records three_store !! strip "joe" = Some joe) by (vm_compute; reflexivity).
  destruct (rank_within_bounds three_store good_disk "joe" [] joe H) as (k & H1 & _ & H2).
  exists k. split; [exact H1|]. exact H2.
Defined.

(** X22: a strictly greater score gets a strictly better rank: of two
    records of the store, the one with the greater score is ranked before
    the other, in [sat.py] and in [sat_manager.py]. *)
Theorem greater_score_ranks_first st dk l1 l2 inp1 inp2 r1 r2 :
  records st !! strip l1 = Some r1 ->
  records st !! strip l2 = Some r2 ->
  (sat_score r2 <? sat_score r1)%float = true ->
  exists k1 k2,
    Sat.reported_rank (Sat.get_rank st dk (l1 :: inp1)) = Some k1
    /\ Sat.reported_rank (Sat.get_rank st dk (l2 :: inp2)) = Some k2
    /\ SatManager.reported_rank (SatManager.get_rank st dk (l1 :: inp1)) = Some k1
    /\ SatManager.reported_rank (SatManager.get_rank st dk (l2 :: inp2)) = Some k2
    /\ k1 < k2.
Proof.
  intros H1 H2 Hlt.
  exists (1 + greater_count st (sat_score r1)), (1 + greater_count st (sat_score r2)).
  destruct (sat_get_rank_found st dk l1 inp1 r1 H1) as (q1 & _ & ->).
  destruct (sat_get_rank_found st dk l2 inp2 r2 H2) as (q2 & _ & ->).
  rewrite (manager_get_rank_found st dk l1 inp1 r1 H1).
  rewrite (manager_get_rank_found st dk l2 inp2 r2 H2).
  unfold Sat.reported_rank, SatManager.reported_rank. simpl.
  rewrite !(Z.add_comm (greater_count st _) 1). repeat split.
  rewrite !greater_count_values.
  assert (Hin : r1 ∈ values (records st)) by (apply elem_of_values; eauto).
  pose proof (count_if_strict (fun r => (sat_score r1 <? sat_score r)%float)
                (fun r => (sat_score r2 <? sat_score r)%float)
                (values (records st)) r1) as Hs.
  simpl in Hs. rewrite float_ltb_irrefl in Hs.
  specialize (Hs (fun x Hx => float_ltb_trans _ _ _ Hlt Hx) Hin eq_refl Hlt). lia.
Qed.

Lemma greater_score_ranks_first_witness :
  exists k1 k2,
    Sat.reported_rank (Sat.get_rank three_store good_disk ["amy"%string]) = Some k1
    /\ Sat.reported_rank (Sat.get_rank three_store good_disk ["joe"%string]) = Some k2
    /\ k1 < k2.
Proof.
  assert (Ha : records three_store !! strip "amy" = Some amy) by (vm_compute; reflexivity).
  assert (Hj : records three_store !! strip "joe" = Some joe) by (vm_compute; reflexivity).
  assert (Hlt : (sat_score joe <? sat_score amy)%float = true) by reflexivity.
  destruct (greater_score_ranks_first three_store good_disk "amy" "joe" [] [] amy joe Ha Hj Hlt)
    as (k1 & k2 & K1 & K2 & _ & _ & K).
  exists k1, k2. split; [exact K1|]. split; [exact K2|exact K].
Defined.

End RankOrder.

(** ** Names *)

Section Names.

Import Py.

Implicit Types (st : store) (dk : disk) (inp : list string) (r : record).

Lemma lstrip_clean p s : starts_clean p (lstrip p s).
Proof. induction s as [|c s IH]; simpl; [done|]. by destruct (p c) eqn:Hc. Qed.

Lemma lstrip_of_clean p s : starts_clean p s -> lstrip p s = s.
Proof. destruct s as [|c s]; simpl; [done|]. by intros ->. Qed.

Lemma rstrip_clean p s : starts_clean p s -> starts_clean p (rstrip p s).
Proof.
  destruct s as [|c s]; simpl; [done|]. intros Hc.
  destruct (rstrip p s); simpl; [by rewrite Hc|done].
Qed.

Lemma rstrip_idemp p s : rstrip p (rstrip p s) = rstrip p s.
Proof.
  induction s as [|c s IH]; simpl; [done|].
  destruct (rstrip p s) as [|d r] eqn:Hr.
  - destruct (p c) eqn:Hc; simpl; [done|]. by rewrite Hc.
  - change (rstrip p (String c (String d r)))
      with (match rstrip p (String d r) with
            | EmptyString => if p c then EmptyString else String c EmptyString
            | r0 => String c r0
            end).
    by rewrite IH.
Qed.

(** Trimming twice is trimming once. *)
Lemma strip_idemp s : strip (strip s) = strip s.
Proof.
  unfold strip.
  rewrite (lstrip_of_clean isspace (rstrip isspace (lstrip isspace s)))
    by apply rstrip_clean, lstrip_clean.
  apply rstrip_idemp.
Qed.

Lemma validate_name_valid line :
  fst (Sat.validate_name (strip line)) = true -> valid_name (strip line).
Proof.
  unfold Sat.validate_name, valid_name. rewrite strip_idemp.
  destruct (String.eqb_spec (strip line) "") as [|Hne]; [done|].
  destruct (Z.gtb_spec (len (strip line)) 100); [done|]. intros _. repeat split; [done|lia].
Qed.

Lemma ask_name_valid recs inp n inp' o :
  Sat.ask_name recs inp = Got (Some n) inp' o -> valid_name n.
Proof.
  revert o. induction inp as [|line inp IH]; intros o; simpl; [done|].
  destruct (Sat.validate_name (strip line)) as [[] o1] eqn:Hv.
  - destruct (has_key _ recs); intros [= <- <- <-].
    apply validate_name_valid. by rewrite Hv.
  - destruct (Sat.ask_name recs inp) as [a rest o2|o2]; simpl; [|done].
    intros [= -> -> <-]. by eapply IH.
Qed.

Lemma valid_is_plain n : valid_name n -> plain_name n.
Proof. by intros (? & ? & _). Qed.

(** The keys after an operation were keys before, but the one that
    [insert_data] adds. *)
Lemma names_after (P : string -> Prop) (recs recs' : gmap string record) :
  (forall n r, recs !! n = Some r -> P n) ->
  (forall n, is_Some (recs' !! n) -> is_Some (recs !! n) \/ P n) ->
  forall n r, recs' !! n = Some r -> P n.
Proof.
  intros H Hsub n r Hn. destruct (Hsub n) as [[r' Hr']|]; eauto.
Qed.

(** X23: the names under which [sat.py] keeps records stay valid: if every
    key is trimmed, not empty and of 100 characters at most before an
    operation, so it is afterwards; and the operations of [sat_manager.py]
    keep every key trimmed and not empty. *)
Theorem operations_keep_names_valid st dk inp :
  names_valid st ->
  (forall c, names_valid (data (Sat.exec c st dk inp)))
  /\ (forall c, names_plain (data (SatManager.exec c st dk inp))).
Proof.
  intros Hv.
  assert (Hp : names_plain st) by (intros n r Hn; by apply valid_is_plain, (Hv n r)).
  destruct st as [m recs]. unfold names_valid, names_plain in *. simpl in Hv, Hp.
  split; intros c;
    [apply (names_after valid_name recs); [exact Hv|]
    |apply (names_after plain_name recs); [exact Hp|]];
    intros n Hn; destruct c; simpl in Hn.
  - unfold Sat.insert_data, Sat.save_data in Hn. simpl in Hn.
    destruct (Sat.ask_name recs inp) as [[k|] inp1 o1|o1] eqn:Hk; simpl in Hn; auto.
    apply ask_name_valid in Hk.
    destruct inp1 as [|l1 [|l2 [|l3 inp1]]]; simpl in Hn; auto.
    destruct (Sat.ask_pincode inp1) as [p inp2 o2|o2]; simpl in Hn; auto.
    destruct (Sat.ask_score _ inp2) as [s inp3 o3|o3]; simpl in Hn; auto.
    destruct (writable dk); simpl in Hn.
    + apply lookup_insert_is_Some in Hn as [<-|[_ Hn]]; auto.
    + rewrite delete_insert_eq in Hn. left.
      destruct Hn as [x Hx]. apply lookup_delete_Some in Hx as [_ Hx]. eauto.
  - unfold Sat.update_score, Sat.save_data in Hn. simpl in Hn.
    destruct (is_empty recs); simpl in Hn; auto.
    destruct inp as [|line inp]; simpl in Hn; auto.
    destruct (recs !! strip line) as [r0|] eqn:Hr; simpl in Hn; auto.
    destruct (Sat.ask_score _ inp) as [s inp3 o3|o3]; simpl in Hn; auto.
    destruct (writable dk); simpl in Hn; rewrite ?insert_insert_eq in Hn;
      apply lookup_insert_is_Some in Hn as [<-|[_ Hn]]; auto; left; eauto.
  - unfold Sat.delete_one_record, Sat.save_data in Hn. simpl in Hn.
    destruct (is_empty recs); simpl in Hn; auto.
    destruct inp as [|line inp]; simpl in Hn; auto.
    destruct (recs !! strip line) as [r0|] eqn:Hr; simpl in Hn; auto.
    destruct inp as [|line2 inp]; simpl in Hn; auto.
    destruct (String.eqb (strip line2) _); simpl in Hn; auto.
    destruct (writable dk); simpl in Hn.
    + left. destruct Hn as [x Hx]. apply lookup_delete_Some in Hx as [_ Hx]. eauto.
    + rewrite insert_delete_id in Hn by done. auto.
  - unfold Sat.set_max_score, Sat.save_data, Sat.recompute in Hn. simpl in Hn.
    destruct (Sat.ask_max inp) as [[x|] inp1 o1|o1]; simpl in Hn; auto.
    destruct (writable dk); simpl in Hn; rewrite ?lookup_fmap in Hn;
      rewrite ?fmap_is_Some in Hn; auto.
  - unfold SatManager.insert_data, SatManager.save_then, SatManager.save_data in Hn.
    destruct inp as [|l inp]; simpl in Hn; auto.
    destruct (String.eqb_spec (strip l) "") as [|Hne]; simpl in Hn; auto.
    destruct (has_key _ _); simpl in Hn; auto.
    destruct inp as [|l1 [|l2 [|l3 [|l4 inp1]]]]; simpl in Hn; auto.
    destruct (SatManager.ask_score inp1) as [s inp3 o3|o3]; simpl in Hn; auto.
    assert (plain_name (strip l)) by (split; [apply strip_idemp|done]).
    destruct (writable dk); simpl in Hn;
      apply lookup_insert_is_Some in Hn as [<-|[_ Hn]]; auto.
  - unfold SatManager.update_score, SatManager.save_then, SatManager.save_data in Hn.
    simpl in Hn.
    destruct (is_empty recs); simpl in Hn; auto.
    destruct inp as [|line inp]; simpl in Hn; auto.
    destruct (recs !! strip line) as [r0|] eqn:Hr; simpl in Hn; auto.
    destruct (SatManager.ask_score inp) as [s inp3 o3|o3]; simpl in Hn; auto.
    destruct (writable dk); simpl in Hn;
      apply lookup_insert_is_Some in Hn as [<-|[_ Hn]]; auto; left; eauto.
  - unfold SatManager.delete_one_record, SatManager.save_then, SatManager.save_data in Hn.
    simpl in Hn.
    destruct (is_empty recs); simpl in Hn; auto.
    destruct inp as [|line inp]; simpl in Hn; auto.
    destruct (has_key _ _); simpl in Hn; auto.
    destruct inp as [|line2 inp]; simpl in Hn; auto.
    destruct (String.eqb (lower (strip line2)) _); simpl in Hn; auto.
    destruct (writable dk); simpl in Hn; left;
      destruct Hn as [x Hx]; apply lookup_delete_Some in Hx as [_ Hx]; eauto.
  - unfold SatManager.set_max_score, SatManager.save_then, SatManager.save_data,
      SatManager.recompute in Hn. simpl in Hn.
    destruct (SatManager.ask_max inp) as [[x|] inp1 o1|o1]; simpl in Hn; auto.
    destruct (writable dk); simpl in Hn; rewrite ?lookup_fmap in Hn;
      rewrite ?fmap_is_Some in Hn; auto.
Qed.

Lemma three_store_names : names_valid three_store.
Proof.
  intros n r Hn. unfold three_store in Hn. simpl in Hn.
  rewrite !lookup_insert_Some, lookup_singleton_Some in Hn.
  destruct Hn as [[<- _]|[_ [[<- _]|[_ [<- _]]]]];
    (split; [vm_compute; reflexivity|split; [discriminate|vm_compute; discriminate]]).
Qed.

Lemma operations_keep_names_valid_witness :
  names_valid three_store
  /\ names_valid (data (Sat.exec Sat.Insert three_store good_disk
                          ["  zoe "; "4 Hill St"; "Goa"; "India"; "403001"; "900"]%string)).
Proof.
  split; [exact three_store_names|].
  exact (proj1 (operations_keep_names_valid three_store good_disk
                  ["  zoe "; "4 Hill St"; "Goa"; "India"; "403001"; "900"]%string
                  three_store_names) Sat.Insert).
Defined.

(** X24: in a store whose keys are trimmed, every record can be reached
    by typing its key: the rank query finds it and reports a rank, in
    [sat.py] and in [sat_manager.py]. *)
Theorem record_is_reachable st dk n r inp :
  names_plain st -> records st !! n = Some r ->
  is_Some (Sat.reported_rank (Sat.get_rank st dk (n :: inp)))
  /\ is_Some (SatManager.reported_rank (SatManager.get_rank st dk (n :: inp))).
Proof.
  intros Hp Hr. destruct (Hp n r Hr) as [Hs _]. rewrite <- Hs in Hr.
  destruct (sat_get_rank_found st dk n inp r Hr) as (q & _ & ->).
  rewrite (manager_get_rank_found st dk n inp r Hr). split; by eexists.
Qed.

Lemma record_is_reachable_witness :
  is_Some (Sat.reported_rank (Sat.get_rank three_store good_disk ["amy"%string])).
Proof.
  refine (proj1 (record_is_reachable three_store good_disk "amy" amy [] _ _)).
  - intros n r Hn. by apply valid_is_plain, (three_store_names n r).
  - vm_compute. reflexivity.
Defined.

End Names.

(** ** What [load_data] returns *)

Section Loading.

Import Py.

Lemma lookup_key_app k (d d' : list (string * value)) v :
  Sat.lookup_key k d = Some v -> Sat.lookup_key k (d ++ d') = Some v.
Proof.
  unfold Sat.lookup_key. induction d as [|[k0 v0] d IH]; simpl; [done|].
  destruct (String.eqb k0 k); [done|]. apply IH.
Qed.

Lemma lookup_key_new k (d : list (string * value)) v :
  Sat.lookup_key k d = None -> Sat.lookup_key k (d ++ [(k, v)]) = Some v.
Proof.
  unfold Sat.lookup_key. induction d as [|[k0 v0] d IH]; simpl.
  - by rewrite String.eqb_refl.
  - destruct (String.eqb k0 k); [done|]. apply IH.
Qed.

Lemma setdefault_keeps k k' v v' d :
  Sat.lookup_key k d = Some v -> Sat.lookup_key k (Sat.setdefault k' v' d) = Some v.
Proof.
  intros H. unfold Sat.setdefault. destruct (Sat.lookup_key k' d); [done|].
  by apply lookup_key_app.
Qed.

Lemma setdefault_has k v d : is_Some (Sat.lookup_key k (Sat.setdefault k v d)).
Proof.
  unfold Sat.setdefault. destruct (Sat.lookup_key k d) as [x|] eqn:H.
  - rewrite H. by eexists.
  - rewrite (lookup_key_new k d v H). by eexists.
Qed.

Lemma existsb_lookup_key k (d : list (string * value)) :
  existsb (fun kv => String.eqb (fst kv) k) d = true <-> is_Some (Sat.lookup_key k d).
Proof.
  unfold Sat.lookup_key. induction d as [|[k0 v0] d IH]; simpl.
  - split; [done|]. by intros [? ?].
  - destruct (String.eqb k0 k); simpl; [|done]. split; [by eexists|done].
Qed.

(** X25: [load_data] of [sat.py] never fails and always returns a
    dictionary that holds [max_score] and [records]; from a JSON object it
    keeps every entry of the file as it is, and it prints the warning
    exactly when the file is there and gives no object. *)
Theorem load_data_total f :
  is_Some (Sat.lookup_key "max_score" (fst (Sat.load_data f)))
  /\ is_Some (Sat.lookup_key "records" (fst (Sat.load_data f)))
  /\ (forall d k v, f = Document (VDict d) -> Sat.lookup_key k d = Some v ->
        Sat.lookup_key k (fst (Sat.load_data f)) = Some v)
  /\ (snd (Sat.load_data f) = [Sat.LoadWarning] <-> f <> Absent /\ not_an_object f).
Proof.
  repeat split.
  - destruct f as [| | |[]]; simpl; try (by eexists).
    destruct (setdefault_has "max_score" (VInt Sat.default_max_score) d) as [x Hx].
    rewrite (setdefault_keeps _ "records" _ (VDict []) _ Hx). by eexists.
  - destruct f as [| | |[]]; simpl; try (by eexists). apply setdefault_has.
  - intros d k v -> Hk. simpl. by do 2 apply setdefault_keeps.
  - destruct f as [| | |[]]; simpl; done.
  - destruct f as [| | |[]]; simpl; done.
  - intros [Hf Hn]. destruct f as [| | |[]]; simpl in *; done.
Qed.

(** X26: [load_data] of [sat_manager.py] returns a JSON object with its
    entries kept and the two keys in it; on a JSON number, boolean or null
    it leaves with a [TypeError], which nothing catches. *)
Theorem manager_load_data_cases :
  (forall d, exists d',
     SatManager.load_data (Document (VDict d)) = Ok (VDict d')
     /\ is_Some (Sat.lookup_key "max_score" d')
     /\ is_Some (Sat.lookup_key "records" d')
     /\ forall k v, Sat.lookup_key k d = Some v -> Sat.lookup_key k d' = Some v)
  /\ (forall v, match v with
                | VNone | VBool _ | VInt _ | VFloat _ => True
                | _ => False
                end ->
      SatManager.load_data (Document v) = Raise TypeError).
Proof.
  split.
  - intros d. unfold SatManager.load_data, SatManager.ensure_key. simpl.
    exists (Sat.setdefault "records" (VDict []) (Sat.setdefault "max_score" (VInt 100) d)).
    assert (Hs : forall k v (d0 : list (string * value)),
               (if negb (existsb (fun kv => String.eqb (fst kv) k) d0)
                then Ok (VDict (d0 ++ [(k, v)])) else Ok (VDict d0))
               = Ok (VDict (Sat.setdefault k v d0))).
    { intros k v d0. unfold Sat.setdefault.
      destruct (existsb _ d0) eqn:He; simpl.
      - apply existsb_lookup_key in He as [x ->]. done.
      - destruct (Sat.lookup_key k d0) eqn:Hl; [|done].
        assert (existsb (fun kv => String.eqb (fst kv) k) d0 = true)
          by (apply existsb_lookup_key; rewrite Hl; by eexists).
        congruence. }
    rewrite (Hs "max_score"%string (VInt 100) d). simpl.
    rewrite (Hs "records"%string (VDict []) _).
    split; [done|]. split; [|split].
    + destruct (setdefault_has "max_score" (VInt 100) d) as [x Hx].
      rewrite (setdefault_keeps _ "records" _ (VDict []) _ Hx). by eexists.
    + apply setdefault_has.
    + intros k v Hk. by do 2 apply setdefault_keeps.
  - intros [] Hv; try done.
Qed.

End Loading.

(** ** What [insert_data] and [update_score] of [sat.py] store *)

Section Stored.

Import Py.

Implicit Types (st : store) (dk : disk) (inp : list string) (r : record).

(** X27: after [insert_data] of [sat.py], every record of the store was
    there before or has a pincode that is not empty, made of digits only and
    three characters long at least; the test of the prompt takes exactly
    such pincodes. *)
Theorem insert_checks_pincode st dk inp n r :
  records (data (Sat.insert_data st dk inp)) !! n = Some r ->
  (records st !! n = Some r \/ pincode_ok (pincode r))
  /\ (forall p, Sat.check_pincode p = None <-> pincode_ok p).
Proof.
  intros H. split; [by eapply sat_stored_pincode|]. apply check_pincode_accepts.
Qed.

Lemma insert_checks_pincode_witness :
  pincode_ok "403001"
  /\ (Sat.check_pincode "40a" = None <-> pincode_ok "40a").
Proof.
  assert (H : exists r,
             records (data (Sat.insert_data three_store good_disk
                              ["zoe"; "4 Hill St"; "Goa"; "India"; "40a"; "403001"; "900"]%string))
               !! "zoe"%string = Some r /\ pincode r = "403001"%string
             /\ records three_store !! "zoe"%string = None).
  { eexists. split; [vm_compute; reflexivity|]. split; vm_compute; reflexivity. }
  destruct H as (r & Hr & Hp & Hnew).
  destruct (insert_checks_pincode three_store good_disk
              ["zoe"; "4 Hill St"; "Goa"; "India"; "40a"; "403001"; "900"]%string "zoe" r Hr)
    as [[Hold|Hok] Hiff].
  - rewrite Hnew in Hold. discriminate Hold.
  - rewrite Hp in Hok. split; [exact Hok|apply Hiff].
Defined.

(** X28: after [insert_data] or [update_score] of [sat.py], every record
    of the store was there before or has a score that is neither below 0
    nor above the maximum; when neither number is NaN, the score lies
    between 0 and the maximum. *)
Theorem insert_and_update_check_score st dk inp n r :
  (records (data (Sat.insert_data st dk inp)) !! n = Some r
   \/ records (data (Sat.update_score st dk inp)) !! n = Some r) ->
  records st !! n = Some r
  \/ ((sat_score r <? 0)%float = false /\ (max_score st <? sat_score r)%float = false
      /\ (is_nan (sat_score r) = false -> is_nan (max_score st) = false ->
          (0 <=? sat_score r)%float = true /\ (sat_score r <=? max_score st)%float = true)).
Proof.
  intros H. destruct (sat_stored_score st dk inp n r H) as [Hold|[H0 H1]]; [by left|].
  right. split; [done|]. split; [done|]. intros Hx Hm. by apply score_in_range.
Qed.

Lemma insert_and_update_check_score_witness :
  exists r,
    records (data (Sat.update_score one_store good_disk ["bob"; "-3"; "2000"; "1200.5"]%string))
      !! "bob"%string = Some r
    /\ (0 <=? sat_score r)%float = true /\ (sat_score r <=? 1600)%float = true.
Proof.
  assert (H : exists r,
             records (data (Sat.update_score one_store good_disk
                              ["bob"; "-3"; "2000"; "1200.5"]%string))
               !! "bob"%string = Some r /\ sat_score r = 1200.5%float).
  { eexists. split; vm_compute; reflexivity. }
  destruct H as (r & Hr & Hs). exists r. split; [exact Hr|].
  destruct (insert_and_update_check_score one_store good_disk
              ["bob"; "-3"; "2000"; "1200.5"]%string "bob" r (or_intror Hr))
    as [Hold|(_ & _ & Hrange)].
  - assert (Hb : records one_store !! "bob"%string = Some bob) by (vm_compute; reflexivity).
    rewrite Hb in Hold. injection Hold as <-. discriminate Hs.
  - rewrite Hs in Hrange |- *. apply Hrange; reflexivity.
Defined.

End Stored.
